(** * CONATOC Net: authorization, visibility and upload-then-publish

    A shallow embedding of [app.py]: the SQLAlchemy tables are lists of
    records, a Dash callback is a function from its [Input]/[State] values,
    the session's current user and the database to its [Output] values and
    the database it leaves behind, and a Flask route is a function to a
    response.  Page layout is left out; what a page or a callback hands to
    the client as data is kept. *)

From Stdlib Require Import ZArith NArith String Ascii List Lia Bool.
From Stdlib.Strings Require Import Byte.
From Stdlib Require Import DecimalString.
From stdpp Require Import base decidable option list gmap strings numbers.

Import ListNotations.
Local Open Scope string_scope.

(** ** Python values the callbacks handle *)

Module Py.

(** A truthy optional string: [None] and the empty string are falsy. *)
Definition nonempty (s : option string) : option string :=
  match s with
  | Some (String c r) => Some (String c r)
  | _ => None
  end.

Definition truthy (s : option string) : bool :=
  match nonempty s with Some _ => true | None => false end.

(** A truthy optional [bytes] value. *)
Definition nonempty_bytes (b : option (list byte)) : option (list byte) :=
  match b with
  | Some (x :: r) => Some (x :: r)
  | _ => None
  end.

(** [x in (a, b, ...)] for a string, and for a value that may be [None]. *)
Definition isin (x : string) (l : list string) : bool := bool_decide (x ∈ l).

Definition isin_opt (x : option string) (l : list string) : bool :=
  match x with Some s => isin s l | None => false end.

(** [str(n)] for an integer. *)
Definition str_int (n : Z) : string := NilZero.string_of_int (Z.to_int n).

(** Code points below 256 for which [str.isspace] holds. *)
Definition isspace (c : ascii) : bool :=
  let n := N_of_ascii c in
  ((9 <=? n) && (n <=? 13) || (28 <=? n) && (n <=? 32)
   || (n =? 133) || (n =? 160))%N.

Fixpoint lstrip_chars (l : list ascii) : list ascii :=
  match l with
  | c :: l' => if isspace c then lstrip_chars l' else l
  | [] => []
  end.

(** [s.strip()] *)
Definition strip (s : string) : string :=
  string_of_list_ascii
    (rev (lstrip_chars (rev (lstrip_chars (list_ascii_of_string s))))).

(** [s.strip() if s else None] *)
Definition strip_or_none (s : option string) : option string :=
  strip <$> nonempty s.

Definition lower_char (c : ascii) : ascii :=
  let n := N_of_ascii c in
  if ((65 <=? n) && (n <=? 90))%N then ascii_of_N (n + 32) else c.

(** [s.lower()], on ASCII letters. *)
Fixpoint lower (s : string) : string :=
  match s with
  | EmptyString => EmptyString
  | String c s' => String (lower_char c) (lower s')
  end.

Fixpoint startswith (s p : string) : bool :=
  match p, s with
  | EmptyString, _ => true
  | String _ _, EmptyString => false
  | String b p', String a s' => Ascii.eqb a b && startswith s' p'
  end.

(** [q in s] for strings. *)
Fixpoint contains (q s : string) : bool :=
  startswith s q ||
  match s with
  | EmptyString => false
  | String _ s' => contains q s'
  end.

(** [s.split(",", 1)]: [None] when the list has one element only, so that
    indexing it at 1 raises [IndexError]. *)
Fixpoint split_comma (s : string) : option (string * string) :=
  match s with
  | EmptyString => None
  | String c s' =>
      if Ascii.eqb c "," then Some (EmptyString, s')
      else (fun '(h, t) => (String c h, t)) <$> split_comma s'
  end.

(** [x or ""] *)
Definition or_empty (s : option string) : string := default "" s.

(** How an f-string renders an optional string. *)
Definition str (s : option string) : string := default "None" s.

(** What a callback or a query gives back: a value, or the exception it
    raised before any commit. *)
Inductive Result (A : Type) : Type :=
| Returned (a : A)
| Raised (exc : string).
Arguments Returned {A} a.
Arguments Raised {A} exc.

End Py.

(** ** [base64.b64encode] and [base64.b64decode]

    The standard alphabet of RFC 4648.  The decoder is the non-strict one
    Python runs by default: characters outside the alphabet are skipped, a
    padding sequence that completes a quad ends the input, and an incomplete
    quad at the end is an error. *)

Module Base64.

Local Open Scope N_scope.

Definition b2a_char (v : N) : ascii :=
  ascii_of_N (if v <? 26 then 65 + v
              else if v <? 52 then 71 + v
              else if v <? 62 then v - 4
              else if v =? 62 then 43 else 47).

Definition a2b_char (c : ascii) : option N :=
  let n := N_of_ascii c in
  if (65 <=? n) && (n <=? 90) then Some (n - 65)
  else if (97 <=? n) && (n <=? 122) then Some (n - 71)
  else if (48 <=? n) && (n <=? 57) then Some (n + 4)
  else if n =? 43 then Some 62
  else if n =? 47 then Some 63
  else None.

Definition sextet1 (a : N) : N := N.shiftr a 2.
Definition sextet2 (a b : N) : N := N.lor (N.shiftl (N.land a 3) 4) (N.shiftr b 4).
Definition sextet3 (b c : N) : N := N.lor (N.shiftl (N.land b 15) 2) (N.shiftr c 6).
Definition sextet4 (c : N) : N := N.land c 63.

Fixpoint b64encode (raw : list byte) : string :=
  match raw with
  | [] => ""
  | [a] =>
      let a := Byte.to_N a in
      String (b2a_char (sextet1 a)) (String (b2a_char (sextet2 a 0)) "==")
  | [a; b] =>
      let a := Byte.to_N a in
      let b := Byte.to_N b in
      String (b2a_char (sextet1 a)) (String (b2a_char (sextet2 a b))
        (String (b2a_char (sextet3 b 0)) "="))
  | a :: b :: c :: rest =>
      let a := Byte.to_N a in
      let b := Byte.to_N b in
      let c := Byte.to_N c in
      String (b2a_char (sextet1 a)) (String (b2a_char (sextet2 a b))
        (String (b2a_char (sextet3 b c)) (String (b2a_char (sextet4 c))
          (b64encode rest))))
  end.

Definition byte_of_N (n : N) : byte := default Byte.x00 (Byte.of_N n).

(** The decoding loop: [quad_pos] is the position in the current group of
    four characters, [leftchar] the bits left over from the characters read
    so far, [pads] the number of padding characters counted since the last
    character of the alphabet.  Each byte put out is below 256. *)
Fixpoint a2b_loop (quad_pos leftchar pads : N) (s : string) : option (list byte) :=
  match s with
  | EmptyString => if quad_pos =? 0 then Some [] else None
  | String ch s' =>
      if Ascii.eqb ch "=" then
        if 2 <=? quad_pos then
          if 4 <=? quad_pos + (pads + 1) then Some []
          else a2b_loop quad_pos leftchar (pads + 1) s'
        else a2b_loop quad_pos leftchar pads s'
      else
        match a2b_char ch with
        | None => a2b_loop quad_pos leftchar pads s'
        | Some v =>
            if quad_pos =? 0 then a2b_loop 1 v 0 s'
            else if quad_pos =? 1 then
              cons (byte_of_N (N.lor (N.shiftl leftchar 2) (N.shiftr v 4)))
                <$> a2b_loop 2 (N.land v 15) 0 s'
            else if quad_pos =? 2 then
              cons (byte_of_N (N.lor (N.shiftl leftchar 4) (N.shiftr v 2)))
                <$> a2b_loop 3 (N.land v 3) 0 s'
            else
              cons (byte_of_N (N.lor (N.shiftl leftchar 6) v))
                <$> a2b_loop 0 0 0 s'
        end
  end.

Fixpoint is_ascii_str (s : string) : bool :=
  match s with
  | EmptyString => true
  | String c s' => (N_of_ascii c <? 128) && is_ascii_str s'
  end.

(** [base64.b64decode(s)] for a [str]: [None] stands for the [ValueError]
    (a character that is not ASCII) or the [binascii.Error] it raises. *)
Definition b64decode (s : string) : option (list byte) :=
  if is_ascii_str s then a2b_loop 0 0 0 s else None.

(** Checks the round-trip proof runs over all sextets and all pairs of
    bytes: a sextet's character decodes to it, is not the padding and is
    ASCII; the sextets of two neighbouring bytes fit six bits and recombine
    to the bytes as the decoding loop recombines them. *)
Definition below (n : nat) : list N := map N.of_nat (seq 0 n).

Definition char_ok (v : N) : bool :=
  match a2b_char (b2a_char v) with
  | Some w => (w =? v) && negb (Ascii.eqb (b2a_char v) "=")
              && (N_of_ascii (b2a_char v) <? 128)
  | None => false
  end.

Definition quad_ok (a b : N) : bool :=
  (sextet1 a <? 64) && (sextet2 a b <? 64) && (sextet3 a b <? 64) && (sextet4 a <? 64)
  && (N.lor (N.shiftl (sextet1 a) 2) (N.shiftr (sextet2 a b) 4) =? a)
  && (N.land (sextet2 a b) 15 =? N.shiftr b 4)
  && (N.lor (N.shiftl (N.shiftr a 4) 4) (N.shiftr (sextet3 a b) 2) =? a)
  && (N.land (sextet3 a b) 3 =? N.shiftr b 6)
  && (N.lor (N.shiftl (N.shiftr a 6) 6) (sextet4 a) =? a).

End Base64.

(** ** Timestamps

    What [now_local()] returns and the [created_at] columns hold. *)

Record datetime := mk_datetime {
  year : nat; month : nat; day : nat;
  hour : nat; minute : nat; second : nat; microsecond : nat
}.

Definition datetime_tuple (d : datetime) : list nat :=
  [year d; month d; day d; hour d; minute d; second d; microsecond d].

Fixpoint lex_ltb (a b : list nat) : bool :=
  match a, b with
  | x :: a', y :: b' => (x <? y)%nat || (x =? y)%nat && lex_ltb a' b'
  | [], _ :: _ => true
  | _, [] => false
  end.

(** [d1 < d2] on timestamps. *)
Definition datetime_ltb (d1 d2 : datetime) : bool :=
  lex_ltb (datetime_tuple d1) (datetime_tuple d2).

(** A number in decimal, zero-padded on the left to [width] digits. *)
Definition zero_padded (width n : nat) : string :=
  let s := NilZero.string_of_uint (Nat.to_uint n) in
  string_of_list_ascii (replicate (width - String.length s) "0"%char) +:+ s.

(** [d.strftime("%Y-%m-%d")] *)
Definition strftime_Ymd (d : datetime) : string :=
  zero_padded 4 (year d) +:+ "-" +:+ zero_padded 2 (month d) +:+ "-" +:+ zero_padded 2 (day d).

(** [d.strftime("%H:%M")] *)
Definition strftime_HM (d : datetime) : string :=
  zero_padded 2 (hour d) +:+ ":" +:+ zero_padded 2 (minute d).

(** ** Models: the rows of the five tables *)

Module User.
Record t := mk {
  id : Z;
  email : string;
  name : string;
  affiliation : option string;
  role : string;            (* admin | researcher | doctor | patient *)
  password_hash : string;
  created_at : datetime;
  is_active : bool
}.
End User.

Module Paper.
Record t := mk {
  id : Z;
  title : string;
  link : option string;
  tags : option string;
  summary : option string;
  created_at : datetime;
  uploaded_by : Z;
  file_name : option string;
  file_bytes : option (list byte)
}.
End Paper.

Module Dataset.
Record t := mk {
  id : Z;
  title : string;
  description : option string;
  link : option string;
  tags : option string;
  visibility : string;      (* members | researchers *)
  created_at : datetime;
  uploaded_by : Z;
  file_name : option string;
  file_bytes : option (list byte)
}.
End Dataset.

Module NewsPost.
Record t := mk {
  id : Z;
  title : string;
  body : string;
  link : option string;
  created_at : datetime;
  created_by : Z
}.
End NewsPost.

Module ChatMessage.
Record t := mk {
  id : Z;
  channel : string;         (* general | research | patients *)
  message : string;
  created_at : datetime;
  created_by : Z
}.
End ChatMessage.

(** The database: each table in insertion order. *)
Record DB := mk_DB {
  users : list User.t;
  papers : list Paper.t;
  datasets : list Dataset.t;
  news_posts : list NewsPost.t;
  chat_messages : list ChatMessage.t
}.

(** ** Queries *)

(** The integer primary key SQLite gives the next inserted row: one more
    than the largest in the table. *)
Definition next_id {A : Type} (pk : A -> Z) (table : list A) : Z :=
  (foldr Z.max 0 (pk <$> table) + 1)%Z.

(** [Model.query.get(i)] *)
Definition query_get {A : Type} (pk : A -> Z) (table : list A) (i : Z) : option A :=
  List.find (fun r => bool_decide (pk r = i)) table.

Fixpoint insert_desc {A : Type} (key : A -> datetime) (x : A) (l : list A) : list A :=
  match l with
  | [] => [x]
  | y :: l' => if datetime_ltb (key x) (key y) then y :: insert_desc key x l' else x :: l
  end.

(** [query.order_by(Model.created_at.desc()).all()]; rows with the same
    timestamp keep their insertion order. *)
Definition order_by_desc {A : Type} (key : A -> datetime) (table : list A) : list A :=
  foldr (insert_desc key) [] table.

(** [User.query.filter_by(email=e).first()] *)
Definition user_by_email (e : string) (table : list User.t) : option User.t :=
  List.find (fun u => bool_decide (User.email u = e)) table.

(** [User.query.filter_by(role=r).order_by(User.created_at.desc()).all()] *)
Definition users_with_role (r : string) (table : list User.t) : list User.t :=
  order_by_desc User.created_at (List.filter (fun u => bool_decide (User.role u = r)) table).

(** [{u.id: u for u in User.query.all()}] *)
Definition users_dict (table : list User.t) : gmap Z User.t :=
  foldl (fun m u => <[User.id u := u]> m) ∅ table.

(** ** The session's current user

    [current_user] is the anonymous user or the [User] row reloaded for the
    session.  [is_authenticated] is a property Flask-Login gives the user
    object; [app.py] does not define it, so a session user carries the value
    the library reports for the request. *)
Inductive CurrentUser : Type :=
| AnonymousUser
| SessionUser (is_authenticated : bool) (u : User.t).

(** The user behind [current_user] once the guard
    [if not current_user.is_authenticated: return ...] has been passed. *)
Definition authenticated (cu : CurrentUser) : option User.t :=
  match cu with
  | SessionUser true u => Some u
  | _ => None
  end.

(** ** What callbacks, pages and routes give back *)

(** The value of an [Output]: [no_update] or a new value. *)
Inductive Update (A : Type) : Type :=
| no_update
| Value (a : A).
Arguments no_update {A}.
Arguments Value {A} a.

(** The three outputs of a [dbc.Alert]: children, color, is_open. *)
Record Alert := mk_Alert {
  children : string;
  color : string;
  is_open : bool
}.

(** A Flask response. *)
Inductive Response : Type :=
| Redirect (location : string)
| Abort (status : nat)
| SendFile (data : list byte) (download_name : string) (mimetype : string).

Module PaperRow.
Record t := mk {
  ID : Z; Title : string; Tags : string; Uploaded_by : string;
  Date : string; Link : string; PDF : string
}.
End PaperRow.

Module DatasetRow.
Record t := mk {
  ID : Z; Title : string; Tags : string; Visibility : string;
  Uploaded_by : string; Date : string; Link : string; File : string
}.
End DatasetRow.

Module PatientRow.
Record t := mk {
  Name : string; Email : string; Affiliation : string; Joined : string
}.
End PatientRow.

Module AdminRow.
Record t := mk {
  ID : Z; Name : string; Email : string; Role : string;
  Affiliation : string; Active : string; Joined : string
}.
End AdminRow.

(** The content of a [dcc.Store] that holds a staged upload. *)
Module UploadStore.
Record t := mk {
  bytes_b64 : string;
  filename : option string
}.
End UploadStore.

(** The caption under an upload box: empty, or
    [f"Selected: {filename} • {size_mb:.2f} MB"], kept as the name and the
    number of bytes it is rendered from. *)
Inductive UploadMeta : Type :=
| NoCaption
| Selected (filename : option string) (size_bytes : nat).

(** ** Directory pages *)

Definition patient_row (p : User.t) : PatientRow.t :=
  {| PatientRow.Name := User.name p;
     PatientRow.Email := User.email p;
     PatientRow.Affiliation := Py.or_empty (User.affiliation p);
     PatientRow.Joined := strftime_Ymd (User.created_at p) |}.

(** What [page_patients] renders: the members-only card of [auth_guard], the
    registry card shown to a patient, or the heading and the table filled
    with [rows]. *)
Inductive PatientsPage : Type :=
| PatientsAuthGuard
| PatientRegistryCard
| RegisteredPatients (rows : list PatientRow.t).

Definition page_patients (cu : CurrentUser) (db : DB) : PatientsPage :=
  match authenticated cu with
  | None => PatientsAuthGuard
  | Some u =>
      if bool_decide (User.role u = "patient") then PatientRegistryCard
      else
        let patients := users_with_role "patient" (users db) in
        RegisteredPatients (patient_row <$> patients)
  end.

Definition filter_patients (cu : CurrentUser) (q : option string) (db : DB)
  : list PatientRow.t :=
  match authenticated cu with
  | None => []
  | Some u =>
      if negb (Py.isin (User.role u) ["admin"; "researcher"]) then []
      else
        let q := Py.lower (Py.strip (Py.or_empty q)) in
        let patients := users_with_role "patient" (users db) in
        let rows := patient_row <$> patients in
        if negb (Py.truthy (Some q)) then rows
        else List.filter
               (fun r => Py.contains q (Py.lower (PatientRow.Name r +:+ PatientRow.Email r)))
               rows
  end.

(** ** Listings of papers and datasets *)

Definition uploader_name (users : gmap Z User.t) (uid : Z) : string :=
  match users !! uid with
  | Some u => User.name u
  | None => "—"
  end.

Definition paper_row (users : gmap Z User.t) (p : Paper.t) : PaperRow.t :=
  {| PaperRow.ID := Paper.id p;
     PaperRow.Title := Paper.title p;
     PaperRow.Tags := Py.or_empty (Paper.tags p);
     PaperRow.Uploaded_by := uploader_name users (Paper.uploaded_by p);
     PaperRow.Date := strftime_Ymd (Paper.created_at p);
     PaperRow.Link := Py.or_empty (Paper.link p);
     PaperRow.PDF := match Py.nonempty_bytes (Paper.file_bytes p) with
                     | Some _ => "Yes"
                     | None => "No"
                     end |}.

Definition paper_rows (db : DB) : list PaperRow.t :=
  paper_row (users_dict (users db)) <$> order_by_desc Paper.created_at (papers db).

Definition dataset_row (users : gmap Z User.t) (ds : Dataset.t) : DatasetRow.t :=
  {| DatasetRow.ID := Dataset.id ds;
     DatasetRow.Title := Dataset.title ds;
     DatasetRow.Tags := Py.or_empty (Dataset.tags ds);
     DatasetRow.Visibility := Dataset.visibility ds;
     DatasetRow.Uploaded_by := uploader_name users (Dataset.uploaded_by ds);
     DatasetRow.Date := strftime_Ymd (Dataset.created_at ds);
     DatasetRow.Link := Py.or_empty (Dataset.link ds);
     DatasetRow.File := match Py.nonempty_bytes (Dataset.file_bytes ds) with
                       | Some _ => "Yes"
                       | None => "No"
                       end |}.

Definition dataset_rows (db : DB) : list DatasetRow.t :=
  dataset_row (users_dict (users db)) <$> order_by_desc Dataset.created_at (datasets db).

(** What [page_data] renders: the members-only card, or the Data Hub with
    its table filled with [rows]. *)
Inductive DataPage : Type :=
| DataAuthGuard
| DataHub (rows : list DatasetRow.t).

Definition page_data (cu : CurrentUser) (db : DB) : DataPage :=
  match authenticated cu with
  | None => DataAuthGuard
  | Some _ => DataHub (dataset_rows db)
  end.

(** ** Upload helpers *)

(** [cache_paper_upload(contents, filename)]: the new content of
    [paper-upload-store] and the caption. *)
Definition cache_paper_upload (contents filename : option string)
  : Py.Result (option UploadStore.t * UploadMeta) :=
  match Py.nonempty contents with
  | None => Py.Returned (None, NoCaption)
  | Some contents =>
      match Py.split_comma contents with
      | None => Py.Raised "IndexError"
      | Some (_, content_string) =>
          match Base64.b64decode content_string with
          | None => Py.Raised "binascii.Error"
          | Some raw =>
              Py.Returned
                (Some {| UploadStore.bytes_b64 := Base64.b64encode raw;
                         UploadStore.filename := filename |},
                 Selected filename (length raw))
          end
      end
  end.

(** [cache_ds_upload(contents, filename)]: the same for [ds-upload-store]. *)
Definition cache_ds_upload (contents filename : option string)
  : Py.Result (option UploadStore.t * UploadMeta) :=
  match Py.nonempty contents with
  | None => Py.Returned (None, NoCaption)
  | Some contents =>
      match Py.split_comma contents with
      | None => Py.Raised "IndexError"
      | Some (_, content_string) =>
          match Base64.b64decode content_string with
          | None => Py.Raised "binascii.Error"
          | Some raw =>
              Py.Returned
                (Some {| UploadStore.bytes_b64 := Base64.b64encode raw;
                         UploadStore.filename := filename |},
                 Selected filename (length raw))
          end
      end
  end.

(** The lines both publish callbacks run on their [upload_store]: the pair
    [(file_name, file_bytes)], both [None] when nothing is staged. *)
Definition staged_file (upload_store : option UploadStore.t)
  : Py.Result (option string * option (list byte)) :=
  match upload_store with
  | None => Py.Returned (None, None)
  | Some store =>
      match Py.nonempty (Some (UploadStore.bytes_b64 store)) with
      | None => Py.Returned (None, None)
      | Some b64 =>
          match Base64.b64decode b64 with
          | None => Py.Raised "binascii.Error"
          | Some raw => Py.Returned (UploadStore.filename store, Some raw)
          end
      end
  end.

(** ** Publishing a paper *)

Definition add_paper (p : Paper.t) (db : DB) : DB :=
  {| users := users db; papers := papers db ++ [p]; datasets := datasets db;
     news_posts := news_posts db; chat_messages := chat_messages db |}.

Definition publish_paper (cu : CurrentUser) (now : datetime)
    (title link tags summary : option string)
    (upload_store : option UploadStore.t) (db : DB)
  : Py.Result (Alert * Update (list PaperRow.t)) * DB :=
  match authenticated cu with
  | None => (Py.Returned (mk_Alert "Please log in." "warning" true, no_update), db)
  | Some u =>
      match Py.nonempty title with
      | None => (Py.Returned (mk_Alert "Title is required." "warning" true, no_update), db)
      | Some title =>
          match staged_file upload_store with
          | Py.Raised e => (Py.Raised e, db)
          | Py.Returned (file_name, file_bytes) =>
              let p := {| Paper.id := next_id Paper.id (papers db);
                          Paper.title := Py.strip title;
                          Paper.link := Py.strip_or_none link;
                          Paper.tags := Py.strip_or_none tags;
                          Paper.summary := Py.strip_or_none summary;
                          Paper.created_at := now;
                          Paper.uploaded_by := User.id u;
                          Paper.file_name := file_name;
                          Paper.file_bytes := file_bytes |} in
              let db' := add_paper p db in
              (Py.Returned (mk_Alert "Published!" "success" true, Value (paper_rows db')), db')
          end
      end
  end.

(** ** Publishing a dataset, with the visibility control *)

Definition add_dataset (ds : Dataset.t) (db : DB) : DB :=
  {| users := users db; papers := papers db; datasets := datasets db ++ [ds];
     news_posts := news_posts db; chat_messages := chat_messages db |}.

Definition publish_dataset (cu : CurrentUser) (now : datetime)
    (title desc link tags vis : option string)
    (upload_store : option UploadStore.t) (db : DB)
  : Py.Result (Alert * Update (list DatasetRow.t)) * DB :=
  match authenticated cu with
  | None => (Py.Returned (mk_Alert "Please log in." "warning" true, no_update), db)
  | Some u =>
      match Py.nonempty title with
      | None => (Py.Returned (mk_Alert "Title is required." "warning" true, no_update), db)
      | Some title =>
          let vis := if Py.isin_opt vis ["members"; "researchers"]
                     then default "members" vis else "members" in
          if bool_decide (vis = "researchers")
             && negb (Py.isin (User.role u) ["admin"; "researcher"])
          then (Py.Returned
                  (mk_Alert "Only researchers/admin can post researcher-only items."
                            "danger" true, no_update), db)
          else
            match staged_file upload_store with
            | Py.Raised e => (Py.Raised e, db)
            | Py.Returned (file_name, file_bytes) =>
                let ds := {| Dataset.id := next_id Dataset.id (datasets db);
                             Dataset.title := Py.strip title;
                             Dataset.description := Py.strip_or_none desc;
                             Dataset.link := Py.strip_or_none link;
                             Dataset.tags := Py.strip_or_none tags;
                             Dataset.visibility := vis;
                             Dataset.created_at := now;
                             Dataset.uploaded_by := User.id u;
                             Dataset.file_name := file_name;
                             Dataset.file_bytes := file_bytes |} in
                let db' := add_dataset ds db in
                (Py.Returned (mk_Alert "Published!" "success" true, Value (dataset_rows db')), db')
            end
      end
  end.

(** ** Download routes *)

Definition download_paper (cu : CurrentUser) (paper_id : Z) (db : DB) : Response :=
  match authenticated cu with
  | None => Redirect "/login"
  | Some _ =>
      match query_get Paper.id (papers db) paper_id with
      | None => Abort 404
      | Some paper =>
          match Py.nonempty_bytes (Paper.file_bytes paper) with
          | None => Abort 404
          | Some data =>
              let fname := default ("paper_" +:+ Py.str_int paper_id +:+ ".pdf")
                                   (Py.nonempty (Paper.file_name paper)) in
              SendFile data fname "application/pdf"
          end
      end
  end.

Definition download_dataset (cu : CurrentUser) (dataset_id : Z) (db : DB) : Response :=
  match authenticated cu with
  | None => Redirect "/login"
  | Some u =>
      match query_get Dataset.id (datasets db) dataset_id with
      | None => Abort 404
      | Some ds =>
          match Py.nonempty_bytes (Dataset.file_bytes ds) with
          | None => Abort 404
          | Some data =>
              if bool_decide (Dataset.visibility ds = "researchers")
                 && negb (Py.isin (User.role u) ["admin"; "researcher"])
              then Abort 403
              else
                let fname := default ("dataset_" +:+ Py.str_int dataset_id +:+ ".bin")
                                     (Py.nonempty (Dataset.file_name ds)) in
                SendFile data fname "application/octet-stream"
          end
      end
  end.

(** ** Community: news feed and chat *)

Definition add_news_post (n : NewsPost.t) (db : DB) : DB :=
  {| users := users db; papers := papers db; datasets := datasets db;
     news_posts := news_posts db ++ [n]; chat_messages := chat_messages db |}.

Definition publish_news (cu : CurrentUser) (now : datetime)
    (title link body : option string) (db : DB) : Alert * DB :=
  match authenticated cu with
  | None => (mk_Alert "Please log in." "warning" true, db)
  | Some u =>
      match Py.nonempty title, Py.nonempty body with
      | Some title, Some body =>
          let post := {| NewsPost.id := next_id NewsPost.id (news_posts db);
                         NewsPost.title := Py.strip title;
                         NewsPost.body := Py.strip body;
                         NewsPost.link := Py.strip_or_none link;
                         NewsPost.created_at := now;
                         NewsPost.created_by := User.id u |} in
          (mk_Alert "Posted to feed." "success" true, add_news_post post db)
      | _, _ => (mk_Alert "Title and message are required." "warning" true, db)
      end
  end.

(** [can_access_channel(ch)], called behind the [is_authenticated] guard,
    where [current_user] is the user [u]. *)
Definition can_access_channel (u : User.t) (ch : option string) : bool :=
  if bool_decide (ch = Some "general") then true
  else if bool_decide (ch = Some "research")
       then Py.isin (User.role u) ["admin"; "researcher"; "doctor"]
  else if bool_decide (ch = Some "patients")
       then Py.isin (User.role u) ["admin"; "patient"]
  else false.

(** One entry of the chat feed: author, time, text. *)
Record ChatItem := mk_ChatItem {
  author : string;
  sent_at : string;
  text : string
}.

(** What [refresh_chat] puts in [chat-feed]: nothing for a visitor, the
    notice that the channel cannot be accessed, or the messages, oldest
    first (with none, the feed shows a placeholder line). *)
Inductive ChatFeed : Type :=
| FeedBlank
| FeedNoAccess
| FeedMessages (items : list ChatItem).

Definition chat_item (users : gmap Z User.t) (m : ChatMessage.t) : ChatItem :=
  {| author := uploader_name users (ChatMessage.created_by m);
     sent_at := strftime_HM (ChatMessage.created_at m);
     text := ChatMessage.message m |}.

Definition refresh_chat (cu : CurrentUser) (channel : option string) (db : DB)
  : ChatFeed * Alert :=
  match authenticated cu with
  | None => (FeedBlank, mk_Alert "" "warning" false)
  | Some u =>
      if negb (can_access_channel u channel)
      then (FeedNoAccess, mk_Alert "Restricted channel." "danger" true)
      else
        let msgs :=
          take 60 (order_by_desc ChatMessage.created_at
                     (List.filter
                        (fun m => bool_decide (Some (ChatMessage.channel m) = channel))
                        (chat_messages db))) in
        let users := users_dict (users db) in
        (FeedMessages (chat_item users <$> rev msgs), mk_Alert "" "success" false)
  end.

Definition add_chat_message (m : ChatMessage.t) (db : DB) : DB :=
  {| users := users db; papers := papers db; datasets := datasets db;
     news_posts := news_posts db; chat_messages := chat_messages db ++ [m] |}.

(** [send_chat(_, channel, text)]: the new value of [chat-text] and the
    alert. *)
Definition send_chat (cu : CurrentUser) (now : datetime)
    (channel text : option string) (db : DB) : (Update string * Alert) * DB :=
  match authenticated cu with
  | None => ((no_update, mk_Alert "Please log in." "warning" true), db)
  | Some u =>
      if negb (can_access_channel u channel)
      then ((no_update, mk_Alert "Restricted channel." "danger" true), db)
      else
        match Py.nonempty (Py.strip <$> Py.nonempty text) with
        | None => ((Value "", mk_Alert "Type a message first." "warning" true), db)
        | Some stripped =>
            let msg := {| ChatMessage.id := next_id ChatMessage.id (chat_messages db);
                          ChatMessage.channel := default "general" channel;
                          ChatMessage.message := stripped;
                          ChatMessage.created_at := now;
                          ChatMessage.created_by := User.id u |} in
            ((Value "", mk_Alert "Sent." "success" true), add_chat_message msg db)
        end
  end.

(** ** Login and registration

    The password hashing of [werkzeug.security] is taken as given. *)

Section Auth.

Variable generate_password_hash : string -> string.
Variable check_password_hash : string -> string -> bool.

(** [login_user(u)]: Flask-Login signs in an active user only; the result is
    the user the session now belongs to, if any. *)
Definition login_user (u : User.t) : option User.t :=
  if User.is_active u then Some u else None.

(** [do_login(_, email, password)]: the alert, the redirect put in
    [auth-redirect], and the user signed in by [login_user]. *)
Definition do_login (email password : option string) (db : DB)
  : (Alert * Update string) * option User.t :=
  match Py.nonempty email, Py.nonempty password with
  | Some email, Some password =>
      match user_by_email (Py.lower (Py.strip email)) (users db) with
      | None => ((mk_Alert "Invalid email or password." "danger" true, no_update), None)
      | Some u =>
          if negb (check_password_hash (User.password_hash u) password)
          then ((mk_Alert "Invalid email or password." "danger" true, no_update), None)
          else if negb (User.is_active u)
          then ((mk_Alert "Account is deactivated. Contact the administrator."
                          "danger" true, no_update), None)
          else ((mk_Alert "Logged in successfully." "success" true, Value "/"),
                login_user u)
      end
  | _, _ => ((mk_Alert "Please enter email and password." "warning" true, no_update), None)
  end.

Definition add_user (u : User.t) (db : DB) : DB :=
  {| users := users db ++ [u]; papers := papers db; datasets := datasets db;
     news_posts := news_posts db; chat_messages := chat_messages db |}.

(** [do_register(_, name, affil, email, password, role, consent)]: the
    alert, the redirect, the user signed in, and the database. *)
Definition do_register (now : datetime)
    (name affil email password role : option string) (consent : bool) (db : DB)
  : ((Alert * Update string) * option User.t) * DB :=
  if negb consent
  then (((mk_Alert "Please confirm the community/privacy checkbox." "warning" true,
          no_update), None), db)
  else
    match Py.nonempty name, Py.nonempty email, Py.nonempty password with
    | Some name, Some email, Some password =>
        let email := Py.lower (Py.strip email) in
        if negb (Py.contains "@" email)
        then (((mk_Alert "Please enter a valid email." "warning" true, no_update), None), db)
        else if (String.length password <? 8)%nat
        then (((mk_Alert "Use a stronger password (8+ characters)." "warning" true,
                no_update), None), db)
        else
          match user_by_email email (users db) with
          | Some _ =>
              (((mk_Alert "This email is already registered. Try logging in." "info" true,
                 no_update), None), db)
          | None =>
              let u := {| User.id := next_id User.id (users db);
                          User.email := email;
                          User.name := Py.strip name;
                          User.affiliation := Py.strip_or_none affil;
                          User.role := if Py.isin_opt role ["patient"; "researcher"]
                                       then default "patient" role else "patient";
                          User.password_hash := generate_password_hash password;
                          User.created_at := now;
                          User.is_active := true |} in
              (((mk_Alert "Account created. Welcome!" "success" true, Value "/"),
                login_user u), add_user u db)
          end
    | _, _, _ =>
        (((mk_Alert "Name, email, and password are required." "warning" true,
           no_update), None), db)
    end.

End Auth.

(** ** Admin actions *)

Definition admin_row (u : User.t) : AdminRow.t :=
  {| AdminRow.ID := User.id u;
     AdminRow.Name := User.name u;
     AdminRow.Email := User.email u;
     AdminRow.Role := User.role u;
     AdminRow.Affiliation := Py.or_empty (User.affiliation u);
     AdminRow.Active := if User.is_active u then "Yes" else "No";
     AdminRow.Joined := strftime_Ymd (User.created_at u) |}.

Definition set_role (new_role : string) (u : User.t) : User.t :=
  {| User.id := User.id u; User.email := User.email u; User.name := User.name u;
     User.affiliation := User.affiliation u; User.role := new_role;
     User.password_hash := User.password_hash u; User.created_at := User.created_at u;
     User.is_active := User.is_active u |}.

Definition set_is_active (b : bool) (u : User.t) : User.t :=
  {| User.id := User.id u; User.email := User.email u; User.name := User.name u;
     User.affiliation := User.affiliation u; User.role := User.role u;
     User.password_hash := User.password_hash u; User.created_at := User.created_at u;
     User.is_active := b |}.

(** The [UPDATE] a commit issues for the changed row [uid]. *)
Definition update_user (uid : Z) (f : User.t -> User.t) (db : DB) : DB :=
  {| users := (fun u => if bool_decide (User.id u = uid) then f u else u) <$> users db;
     papers := papers db; datasets := datasets db;
     news_posts := news_posts db; chat_messages := chat_messages db |}.

(** [admin_actions(setrole_clicks, deact_clicks, selected, data, new_role)];
    [trig] is the id of the button that fired the callback
    ([dash.callback_context.triggered[0]]). *)
Definition admin_actions (cu : CurrentUser) (trig : string)
    (selected : list nat) (data : list AdminRow.t) (new_role : option string) (db : DB)
  : Py.Result (Alert * Update (list AdminRow.t)) * DB :=
  match authenticated cu with
  | None => (Py.Returned (mk_Alert "Not authorized." "danger" true, no_update), db)
  | Some cur =>
      if negb (bool_decide (User.role cur = "admin"))
      then (Py.Returned (mk_Alert "Not authorized." "danger" true, no_update), db)
      else
        match selected with
        | [] => (Py.Returned (mk_Alert "Select a user first." "warning" true, no_update), db)
        | i :: _ =>
            match data !! i with
            | None => (Py.Raised "IndexError", db)
            | Some row =>
                let uid := AdminRow.ID row in
                match query_get User.id (users db) uid with
                | None => (Py.Returned (mk_Alert "User not found." "danger" true, no_update), db)
                | Some u =>
                    let done (msg color : string) (db' : DB) :=
                      (Py.Returned
                         (mk_Alert msg color true,
                          Value (admin_row <$> order_by_desc User.created_at (users db'))),
                       db') in
                    if bool_decide (trig = "btn-admin-setrole") then
                      if negb (Py.isin_opt new_role ["admin"; "researcher"; "patient"])
                      then (Py.Returned (mk_Alert "Invalid role." "warning" true, no_update), db)
                      else
                        let new_role := default "" new_role in
                        done ("Updated role for " +:+ User.email u +:+ " → " +:+ new_role +:+ ".")
                             "success" (update_user uid (set_role new_role) db)
                    else
                      if bool_decide (User.id u = User.id cur)
                      then (Py.Returned
                              (mk_Alert "You can’t deactivate your own account."
                                        "warning" true, no_update), db)
                      else
                        done ("Deactivated " +:+ User.email u +:+ ".")
                             "info" (update_user uid (set_is_active false) db)
                end
            end
        end
  end.

(** ** The two upload stores on the client

    [app.layout] holds [paper-upload-store] and [ds-upload-store].  A
    callback reads the components named by its [Input] and [State]
    arguments and writes those named by its [Output] arguments, and no
    other. *)

Record Stores := mk_Stores {
  paper_upload_store : option UploadStore.t;
  ds_upload_store : option UploadStore.t
}.

(** A file is chosen in [paper-upload]: [cache_paper_upload] runs and its
    first output replaces [paper-upload-store]; a callback that raises
    updates nothing. *)
Definition on_paper_upload (contents filename : option string) (st : Stores) : Stores :=
  match cache_paper_upload contents filename with
  | Py.Returned (store, _) =>
      {| paper_upload_store := store; ds_upload_store := ds_upload_store st |}
  | Py.Raised _ => st
  end.

Definition on_ds_upload (contents filename : option string) (st : Stores) : Stores :=
  match cache_ds_upload contents filename with
  | Py.Returned (store, _) =>
      {| paper_upload_store := paper_upload_store st; ds_upload_store := store |}
  | Py.Raised _ => st
  end.

(** [btn-paper-publish] is clicked: [publish_paper] runs with
    [paper-upload-store] as a [State]; its outputs are the alert and
    [papers-table], so the stores stay as they are. *)
Definition on_paper_publish (cu : CurrentUser) (now : datetime)
    (title link tags summary : option string) (st : Stores) (db : DB)
  : Py.Result (Alert * Update (list PaperRow.t)) * Stores * DB :=
  let '(out, db') := publish_paper cu now title link tags summary (paper_upload_store st) db in
  (out, st, db').

(** [btn-ds-publish] is clicked: the same with [ds-upload-store]. *)
Definition on_ds_publish (cu : CurrentUser) (now : datetime)
    (title desc link tags vis : option string) (st : Stores) (db : DB)
  : Py.Result (Alert * Update (list DatasetRow.t)) * Stores * DB :=
  let '(out, db') := publish_dataset cu now title desc link tags vis (ds_upload_store st) db in
  (out, st, db').

(** ** The channel table of the specification

    Section 4.2: [general] is open to the four roles, [research] to admin,
    researcher and doctor, [patients] to admin and patient. *)

Definition roles : list string := ["admin"; "researcher"; "doctor"; "patient"].

Definition channels : list string := ["general"; "research"; "patients"].

Definition channel_table : list (string * list string) :=
  [("general", ["admin"; "researcher"; "doctor"; "patient"]);
   ("research", ["admin"; "researcher"; "doctor"]);
   ("patients", ["admin"; "patient"])].

Definition channel_allowed (role channel : string) : bool :=
  match List.find (fun row => bool_decide (fst row = channel)) channel_table with
  | Some (_, allowed) => bool_decide (role ∈ allowed)
  | None => false
  end.

(** The role self-registration stores for a requested one, in the words of
    section 4.1: the request if it is patient or researcher, and patient for
    any other value. *)
Definition coerced_role (role : option string) : string :=
  if Py.isin_opt role ["patient"; "researcher"] then default "patient" role else "patient".

(** The database after an admin has deactivated the user [uid]. *)
Definition deactivated (uid : Z) (db : DB) : DB :=
  update_user uid (set_is_active false) db.

(** The alert of a publish that went through. *)
Definition published : Alert := mk_Alert "Published!" "success" true.

(** ** A small database to run the callbacks on *)

Module Sample.

Definition t0 : datetime := mk_datetime 2025 1 15 10 30 0 0.
Definition t1 : datetime := mk_datetime 2025 1 15 10 31 0 0.
Definition t2 : datetime := mk_datetime 2025 1 15 10 32 0 0.

Definition member (id : Z) (role name email : string) : User.t :=
  {| User.id := id; User.email := email; User.name := name;
     User.affiliation := None; User.role := role;
     User.password_hash := "hash"; User.created_at := t0;
     User.is_active := true |}.

Definition admin : User.t := member 1 "admin" "Marica Bakovic (Admin)" "admin@conatoc.net".
Definition researcher : User.t := member 2 "researcher" "R. Lee" "r@x.org".
Definition doctor : User.t := member 3 "doctor" "D. Osei" "d@x.org".
Definition patient : User.t := member 4 "patient" "P. Roy" "p1@x.org".

Definition db : DB :=
  {| users := [admin; researcher; doctor; patient];
     papers := []; datasets := []; news_posts := []; chat_messages := [] |}.

(** Three bytes, and the [contents] a [dcc.Upload] hands over for them. *)
Definition raw : list byte := [Byte.x01; Byte.x02; Byte.x03].
Definition contents : string := "data:application/octet-stream;base64,AQID".

(** A researchers-only dataset with a file, as the only dataset. *)
Definition restricted : Dataset.t :=
  {| Dataset.id := 1; Dataset.title := "Cohort"; Dataset.description := None;
     Dataset.link := None; Dataset.tags := None; Dataset.visibility := "researchers";
     Dataset.created_at := t1; Dataset.uploaded_by := 2;
     Dataset.file_name := Some "cohort.bin"; Dataset.file_bytes := Some raw |}.

Definition db_restricted : DB :=
  {| users := users db; papers := []; datasets := [restricted];
     news_posts := []; chat_messages := [] |}.

(** A patient stages one file and then clicks Publish twice, with two
    titles and no new file in between. *)
Definition staged : Stores :=
  on_paper_upload (Some contents) (Some "notes.pdf") (mk_Stores None None).

Definition first_publish :=
  on_paper_publish (SessionUser true patient) t1
    (Some "Lipidomics notes") None None None staged db.

Definition second_publish :=
  on_paper_publish (SessionUser true patient) t2
    (Some "SLC44A1 review") None None None first_publish.1.2 first_publish.2.

(** Password hashing for the sample accounts: the hash is the password
    behind a tag. *)
Definition generate_password_hash (password : string) : string := "plain$" +:+ password.
Definition check_password_hash (pwhash password : string) : bool :=
  String.eqb pwhash ("plain$" +:+ password).



End Sample.

(** ** Guards *)

(** What a guarded page shows: its content, the members-only card of
    [auth_guard], or the restricted card of [role_guard]. *)
Inductive Guarded (A : Type) : Type :=
| Content (content : A)
| MembersOnly
| Restricted.
Arguments Content {A} content.
Arguments MembersOnly {A}.
Arguments Restricted {A}.

Definition auth_guard {A : Type} (cu : CurrentUser) (content : A) : Guarded A :=
  match authenticated cu with
  | Some _ => Content content
  | None => MembersOnly
  end.

Definition role_guard {A : Type} (cu : CurrentUser) (allowed_roles : list string)
    (content : A) : Guarded A :=
  match authenticated cu with
  | None => auth_guard cu content
  | Some u => if Py.isin (User.role u) allowed_roles then Content content else Restricted
  end.

(** ** Bootstrap and session loading *)

Section Bootstrap.

Variable generate_password_hash : string -> string.
Variables ADMIN_EMAIL ADMIN_PASSWORD : string.

(** The block run at start-up under [server.app_context()]: seed the admin
    account unless a user with the configured e-mail exists. *)
Definition bootstrap (now : datetime) (db : DB) : DB :=
  match user_by_email ADMIN_EMAIL (users db) with
  | Some _ => db
  | None =>
      add_user {| User.id := next_id User.id (users db);
                  User.email := ADMIN_EMAIL;
                  User.name := "Marica Bakovic (Admin)";
                  User.affiliation := Some "University of Guelph";
                  User.role := "admin";
                  User.password_hash := generate_password_hash ADMIN_PASSWORD;
                  User.created_at := now;
                  User.is_active := true |} db
  end.

End Bootstrap.

(** [load_user(user_id)], for a [user_id] that [int] accepts. *)
Definition load_user (user_id : Z) (db : DB) : option User.t :=
  query_get User.id (users db) user_id.

(** ** Navigation and the pages not yet given *)

(** The links of [top_navbar], as label and href. *)
Definition top_navbar_items (cu : CurrentUser) : list (string * string) :=
  let items := [("Home", "/"); ("Papers", "/papers"); ("Data Hub", "/data");
                ("Researchers", "/researchers"); ("Doctors", "/doctors");
                ("Patients", "/patients"); ("Community", "/community")] in
  match authenticated cu with
  | Some u => if bool_decide (User.role u = "admin")
              then (items ++ [("Admin", "/admin")])%list else items
  | None => items
  end.

Module DirectoryRow.
Record t := mk {
  Name : string; Email : string; Affiliation : string; Role : string; Joined : string
}.
End DirectoryRow.

Definition directory_row (u : User.t) : DirectoryRow.t :=
  {| DirectoryRow.Name := User.name u;
     DirectoryRow.Email := User.email u;
     DirectoryRow.Affiliation := Py.or_empty (User.affiliation u);
     DirectoryRow.Role := User.role u;
     DirectoryRow.Joined := strftime_Ymd (User.created_at u) |}.

(** [User.query.filter(User.role.in_(rs)).order_by(User.created_at.desc()).all()] *)
Definition users_with_roles (rs : list string) (table : list User.t) : list User.t :=
  order_by_desc User.created_at (List.filter (fun u => Py.isin (User.role u) rs) table).

Definition page_researchers (cu : CurrentUser) (db : DB)
  : Guarded (option (list DirectoryRow.t)) :=
  match authenticated cu with
  | None => auth_guard cu None
  | Some _ =>
      Content (Some (directory_row <$> users_with_roles ["researcher"; "admin"] (users db)))
  end.

Definition page_doctors (cu : CurrentUser) (db : DB)
  : Guarded (option (list DirectoryRow.t)) :=
  match authenticated cu with
  | None => auth_guard cu None
  | Some _ => Content (Some (directory_row <$> users_with_role "doctor" (users db)))
  end.

Definition page_papers (cu : CurrentUser) (db : DB)
  : Guarded (option (list PaperRow.t)) :=
  match authenticated cu with
  | None => auth_guard cu None
  | Some _ => Content (Some (paper_rows db))
  end.

Definition page_admin (cu : CurrentUser) (db : DB)
  : Guarded (option (list AdminRow.t)) :=
  match authenticated cu with
  | None => auth_guard cu None
  | Some u =>
      if negb (bool_decide (User.role u = "admin")) then role_guard cu ["admin"] None
      else Content (Some (admin_row <$> order_by_desc User.created_at (users db)))
  end.

(** The options of the channel selector on the community page, as label and
    value, and the value selected at first. *)
Definition channel_opts (u : User.t) : list (string * string) :=
  ([("General", "general")]
   ++ (if Py.isin (User.role u) ["admin"; "researcher"; "doctor"]
       then [("Research", "research")] else [])
   ++ (if Py.isin (User.role u) ["admin"; "patient"]
       then [("Patients", "patients")] else []))%list.

Definition page_community (cu : CurrentUser) : Guarded (option (list (string * string) * string)) :=
  match authenticated cu with
  | None => auth_guard cu None
  | Some u => Content (Some (channel_opts u, "general"))
  end.

(** ** The home page *)

Record PaperCard := mk_PaperCard {
  card_title : string;
  card_tags : string;
  card_open_link : option string;
  card_download : option string
}.

Definition paper_card (p : Paper.t) : PaperCard :=
  {| card_title := Paper.title p;
     card_tags := default "—" (Py.nonempty (Paper.tags p));
     card_open_link := Py.nonempty (Paper.link p);
     card_download := match Py.nonempty_bytes (Paper.file_bytes p) with
                      | Some _ => Some ("/download/paper/" +:+ Py.str_int (Paper.id p))
                      | None => None
                      end |}.

Record NewsCard := mk_NewsCard {
  news_title : string;
  news_body : string;
  news_link : option string;
  news_stamp : string
}.

(** The card of a post on the home page: the first 180 characters of the
    body, and no time stamp. *)
Definition home_news_card (n : NewsPost.t) : NewsCard :=
  {| news_title := NewsPost.title n;
     news_body := String.substring 0 180 (NewsPost.body n)
                  +:+ (if (180 <? String.length (NewsPost.body n))%nat then "..." else "");
     news_link := Py.nonempty (NewsPost.link n);
     news_stamp := "" |}.

Record HomePage := mk_HomePage {
  papers_count : nat;
  researchers_count : nat;
  patients_count : nat;
  latest_papers : list PaperCard;
  latest_news : list NewsCard;
  hero_button : string * string
}.

Definition page_home (cu : CurrentUser) (db : DB) : HomePage :=
  {| papers_count := length (papers db);
     researchers_count :=
       length (List.filter (fun u => Py.isin (User.role u) ["researcher"; "admin"]) (users db));
     patients_count :=
       length (List.filter (fun u => bool_decide (User.role u = "patient")) (users db));
     latest_papers := paper_card <$> take 6 (order_by_desc Paper.created_at (papers db));
     latest_news := home_news_card <$> take 4 (order_by_desc NewsPost.created_at (news_posts db));
     hero_button := match authenticated cu with
                    | None => ("Join / Login", "/login")
                    | Some _ => ("Open Community", "/community")
                    end |}.

(** ** The router *)

Inductive Page : Type :=
| HomeView (home : HomePage)
| LoginView
| PapersView (page : Guarded (option (list PaperRow.t)))
| DataView (page : DataPage)
| ResearchersView (page : Guarded (option (list DirectoryRow.t)))
| DoctorsView (page : Guarded (option (list DirectoryRow.t)))
| PatientsView (page : PatientsPage)
| CommunityView (page : Guarded (option (list (string * string) * string)))
| AdminView (page : Guarded (option (list AdminRow.t)))
| PageNotFound.

Definition render_page (cu : CurrentUser) (pathname : option string) (db : DB) : Page :=
  if bool_decide (pathname ∈ [None; Some "/"; Some ""]) then HomeView (page_home cu db)
  else if bool_decide (pathname = Some "/login") then LoginView
  else if bool_decide (pathname = Some "/papers") then PapersView (page_papers cu db)
  else if bool_decide (pathname = Some "/data") then DataView (page_data cu db)
  else if bool_decide (pathname = Some "/researchers")
       then ResearchersView (page_researchers cu db)
  else if bool_decide (pathname = Some "/doctors") then DoctorsView (page_doctors cu db)
  else if bool_decide (pathname = Some "/patients") then PatientsView (page_patients cu db)
  else if bool_decide (pathname = Some "/community") then CommunityView (page_community cu)
  else if bool_decide (pathname = Some "/admin") then AdminView (page_admin cu db)
  else PageNotFound.

(** ** Search filters *)

(** [any(q in str(r[k]).lower() for k in keys)], the row given as the values
    under the keys. *)
Definition hit (q : string) (values : list string) : bool :=
  existsb (fun v => Py.contains q (Py.lower v)) values.

(** [(q or "").strip().lower()] *)
Definition search_text (q : option string) : string :=
  Py.lower (Py.strip (Py.or_empty q)).

Definition filter_researchers (cu : CurrentUser) (q : option string) (db : DB)
  : list DirectoryRow.t :=
  match authenticated cu with
  | None => []
  | Some _ =>
      let q := search_text q in
      let rows := directory_row <$> users_with_roles ["researcher"; "admin"] (users db) in
      if negb (Py.truthy (Some q)) then rows
      else List.filter
             (fun r => hit q [DirectoryRow.Name r; DirectoryRow.Email r;
                              DirectoryRow.Affiliation r; DirectoryRow.Role r])
             rows
  end.

Definition filter_doctors (cu : CurrentUser) (q : option string) (db : DB)
  : list DirectoryRow.t :=
  match authenticated cu with
  | None => []
  | Some _ =>
      let q := search_text q in
      let rows := directory_row <$> users_with_role "doctor" (users db) in
      if negb (Py.truthy (Some q)) then rows
      else List.filter
             (fun r => hit q [DirectoryRow.Name r; DirectoryRow.Email r;
                              DirectoryRow.Affiliation r; DirectoryRow.Role r;
                              DirectoryRow.Joined r])
             rows
  end.



(** ** Row actions *)

(** A button under a table: its label and where it leads. *)
Record Button := mk_Button {
  label : string;
  href : string
}.

(** [paper_actions(sel, data)]: [None] for the empty string returned when
    nothing is selected, else the buttons of the selected row. *)
Definition paper_actions (sel : list nat) (data : list PaperRow.t)
  : Py.Result (option (list Button)) :=
  match sel, data with
  | [], _ | _, [] => Py.Returned None
  | i :: _, _ =>
      match data !! i with
      | None => Py.Raised "IndexError"
      | Some row =>
          Py.Returned (Some
            ((if Py.truthy (Some (PaperRow.Link row))
              then [mk_Button "Open link" (PaperRow.Link row)] else [])
             ++ (if bool_decide (PaperRow.PDF row = "Yes")
                 then [mk_Button "Download PDF"
                         ("/download/paper/" +:+ Py.str_int (PaperRow.ID row))]
                 else []))%list)
      end
  end.

Definition ds_actions (sel : list nat) (data : list DatasetRow.t)
  : Py.Result (option (list Button)) :=
  match sel, data with
  | [], _ | _, [] => Py.Returned None
  | i :: _, _ =>
      match data !! i with
      | None => Py.Raised "IndexError"
      | Some row =>
          Py.Returned (Some
            ((if Py.truthy (Some (DatasetRow.Link row))
              then [mk_Button "Open link" (DatasetRow.Link row)] else [])
             ++ (if bool_decide (DatasetRow.File row = "Yes")
                 then [mk_Button "Download file"
                         ("/download/dataset/" +:+ Py.str_int (DatasetRow.ID row))]
                 else []))%list)
      end
  end.

(** ** The news feed *)

(** [d.strftime("%Y-%m-%d %H:%M")] *)
Definition strftime_Ymd_HM (d : datetime) : string :=
  strftime_Ymd d +:+ " " +:+ strftime_HM d.

Definition news_card (n : NewsPost.t) : NewsCard :=
  {| news_title := NewsPost.title n;
     news_body := NewsPost.body n;
     news_link := Py.nonempty (NewsPost.link n);
     news_stamp := strftime_Ymd_HM (NewsPost.created_at n) |}.

(** [render_news_cards(posts)]: with no post, the list holds one
    placeholder line instead, which [NoPostsYet] stands for. *)
Inductive NewsFeed : Type :=
| NewsBlank
| NoPostsYet
| NewsCards (cards : list NewsCard).

Definition render_news_cards (posts : list NewsPost.t) : NewsFeed :=
  match posts with
  | [] => NoPostsYet
  | _ => NewsCards (news_card <$> posts)
  end.

Definition refresh_news (cu : CurrentUser) (db : DB) : NewsFeed :=
  match authenticated cu with
  | None => NewsBlank
  | Some _ =>
      render_news_cards (take 10 (order_by_desc NewsPost.created_at (news_posts db)))
  end.

(** ** Well-formed databases *)

(** What the schema promises of the [user] table: the primary key and the
    e-mail column are unique. *)
Definition users_unique (db : DB) : Prop :=
  NoDup (User.id <$> users db) /\ NoDup (User.email <$> users db).

(** When [do_register] reaches its last line: the box is ticked, the three
    fields are given, the normalised e-mail has an [@], the password has
    eight characters or more and the e-mail is not taken. *)
Definition registrable (name email password : option string) (consent : bool)
    (db : DB) : Prop :=
  consent = true
  /\ Py.truthy name = true
  /\ exists e p,
       Py.nonempty email = Some e /\ Py.nonempty password = Some p
       /\ Py.contains "@" (Py.lower (Py.strip e)) = true
       /\ (8 <= String.length p)%nat
       /\ user_by_email (Py.lower (Py.strip e)) (users db) = None.

(** A table after an operation that appends at most one row: the table as
    it was, or with one row more under the next id. *)
Definition appended {A : Type} (pk : A -> Z) (before after : list A) : Prop :=
  after = before \/ exists r, after = (before ++ [r])%list /\ pk r = next_id pk before.




(** * Properties *)

(** ** Python helpers and the Base64 round trip *)

Example strip_spaces : Py.strip "  SLC44A1 review  " = "SLC44A1 review".
Proof. reflexivity. Qed.

Example lower_email : Py.lower (Py.strip " P1@X.org ") = "p1@x.org".
Proof. reflexivity. Qed.

Example split_contents :
  Py.split_comma "data:application/pdf;base64,AQID" = Some ("data:application/pdf;base64", "AQID").
Proof. reflexivity. Qed.

Example b64encode_man : Base64.b64encode [Byte.x4d; Byte.x61; Byte.x6e] = "TWFu".
Proof. reflexivity. Qed.

Example b64decode_pad : Base64.b64decode "TWE=" = Some [Byte.x4d; Byte.x61].
Proof. reflexivity. Qed.

Example b64decode_newline :
  Base64.b64decode (String (ascii_of_N 10) "TW" +:+ String (ascii_of_N 10) "Fu") =
  Some [Byte.x4d; Byte.x61; Byte.x6e].
Proof. reflexivity. Qed.

Example b64decode_bad : Base64.b64decode "TWE" = None.
Proof. reflexivity. Qed.

Section Base64Facts.
Import Base64.
Local Open Scope N_scope.

Lemma below_spec (n : nat) (v : N) : v < N.of_nat n -> In v (below n).
Proof.
  intros Hv. unfold below. apply in_map_iff. exists (N.to_nat v). split.
  - apply N2Nat.id.
  - apply in_seq. lia.
Qed.

Lemma char_ok_all : forallb char_ok (below 64) = true.
Proof. vm_compute. reflexivity. Qed.

Lemma char_ok_lt (v : N) : v < 64 -> char_ok v = true.
Proof.
  intros Hv. pose proof char_ok_all as H.
  rewrite forallb_forall in H. apply H, (below_spec 64). exact Hv.
Qed.

Lemma quad_ok_all : forallb (fun a => forallb (quad_ok a) (below 256)) (below 256) = true.
Proof. vm_compute. reflexivity. Qed.

Lemma quad_ok_lt (a b : N) : a < 256 -> b < 256 -> quad_ok a b = true.
Proof.
  intros Ha Hb. pose proof quad_ok_all as H.
  rewrite forallb_forall in H. specialize (H a (below_spec 256 a Ha)).
  rewrite forallb_forall in H. apply H, (below_spec 256). exact Hb.
Qed.

Lemma to_N_lt (x : byte) : Byte.to_N x < 256.
Proof. pose proof (Byte.to_N_bounded x). lia. Qed.

Lemma byte_of_to_N (x : byte) : byte_of_N (Byte.to_N x) = x.
Proof. unfold byte_of_N. rewrite Byte.of_to_N. reflexivity. Qed.

Lemma quad_facts (x y : N) :
  x < 256 -> y < 256 ->
  (sextet1 x < 64 /\ sextet2 x y < 64 /\ sextet3 x y < 64 /\ sextet4 x < 64) /\
  N.lor (N.shiftl (sextet1 x) 2) (N.shiftr (sextet2 x y) 4) = x /\
  N.land (sextet2 x y) 15 = N.shiftr y 4 /\
  N.lor (N.shiftl (N.shiftr x 4) 4) (N.shiftr (sextet3 x y) 2) = x /\
  N.land (sextet3 x y) 3 = N.shiftr y 6 /\
  N.lor (N.shiftl (N.shiftr x 6) 6) (sextet4 x) = x.
Proof.
  intros Hx Hy. pose proof (quad_ok_lt x y Hx Hy) as H.
  unfold quad_ok in H.
  repeat (apply andb_prop in H as [H ?]).
  repeat match goal with
         | E : (_ <? _) = true |- _ => apply N.ltb_lt in E
         | E : (_ =? _) = true |- _ => apply N.eqb_eq in E
         end.
  repeat split; assumption.
Qed.

Lemma a2b_loop_char (q lc p v : N) (s : string) :
  v < 64 ->
  a2b_loop q lc p (String (b2a_char v) s) =
    if q =? 0 then a2b_loop 1 v 0 s
    else if q =? 1 then
      cons (byte_of_N (N.lor (N.shiftl lc 2) (N.shiftr v 4))) <$> a2b_loop 2 (N.land v 15) 0 s
    else if q =? 2 then
      cons (byte_of_N (N.lor (N.shiftl lc 4) (N.shiftr v 2))) <$> a2b_loop 3 (N.land v 3) 0 s
    else cons (byte_of_N (N.lor (N.shiftl lc 6) v)) <$> a2b_loop 0 0 0 s.
Proof.
  intros Hv. apply char_ok_lt in Hv. unfold char_ok in Hv.
  cbn [a2b_loop].
  destruct (a2b_char (b2a_char v)) as [w|]; [|discriminate].
  apply andb_prop in Hv as [Hv _]. apply andb_prop in Hv as [Hw Hp].
  apply N.eqb_eq in Hw. subst w.
  destruct (Ascii.eqb (b2a_char v) "="); [discriminate|]. reflexivity.
Qed.

(** Decoding the two, three or four characters that encode one, two or
    three bytes. *)
Lemma a2b_loop_pair (a b : N) (s : string) :
  a < 256 -> b < 256 ->
  a2b_loop 0 0 0 (String (b2a_char (sextet1 a)) (String (b2a_char (sextet2 a b)) s)) =
  cons (byte_of_N a) <$> a2b_loop 2 (N.shiftr b 4) 0 s.
Proof.
  intros Ha Hb.
  destruct (quad_facts a b Ha Hb) as ((H1 & H2 & _ & _) & E1 & E2 & _).
  rewrite (a2b_loop_char 0) by exact H1. cbn [N.eqb].
  rewrite (a2b_loop_char 1) by exact H2. cbn [N.eqb Pos.eqb].
  rewrite E1, E2. reflexivity.
Qed.

Lemma a2b_loop_third (b c : N) (s : string) :
  b < 256 -> c < 256 ->
  a2b_loop 2 (N.shiftr b 4) 0 (String (b2a_char (sextet3 b c)) s) =
  cons (byte_of_N b) <$> a2b_loop 3 (N.shiftr c 6) 0 s.
Proof.
  intros Hb Hc.
  destruct (quad_facts b c Hb Hc) as ((_ & _ & H3 & _) & _ & _ & E3 & E4 & _).
  rewrite (a2b_loop_char 2) by exact H3. cbn [N.eqb Pos.eqb].
  rewrite E3, E4. reflexivity.
Qed.

Lemma a2b_loop_fourth (c : N) (s : string) :
  c < 256 ->
  a2b_loop 3 (N.shiftr c 6) 0 (String (b2a_char (sextet4 c)) s) =
  cons (byte_of_N c) <$> a2b_loop 0 0 0 s.
Proof.
  intros Hc.
  destruct (quad_facts c 0 Hc eq_refl) as ((_ & _ & _ & H4) & _ & _ & _ & _ & E5).
  rewrite (a2b_loop_char 3) by exact H4. cbn [N.eqb Pos.eqb].
  rewrite E5. reflexivity.
Qed.

Lemma list_ind3 {A : Type} (P : list A -> Prop) :
  P [] -> (forall a, P [a]) -> (forall a b, P [a; b]) ->
  (forall a b c l, P l -> P (a :: b :: c :: l)) ->
  forall l, P l.
Proof.
  intros H0 H1 H2 H3.
  assert (forall l, P l /\ (forall a, P (a :: l)) /\ (forall a b, P (a :: b :: l))) as H.
  { induction l as [|x l (IH0 & IH1 & IH2)]; repeat split; auto. }
  intros l. apply H.
Qed.

Lemma a2b_loop_b64encode (raw : list byte) :
  a2b_loop 0 0 0 (b64encode raw) = Some raw.
Proof.
  induction raw as [|a|a b|a b c l IH] using list_ind3.
  - reflexivity.
  - cbn [b64encode].
    rewrite a2b_loop_pair by (apply to_N_lt || reflexivity).
    rewrite byte_of_to_N. reflexivity.
  - cbn [b64encode].
    rewrite a2b_loop_pair by apply to_N_lt.
    rewrite a2b_loop_third by (apply to_N_lt || reflexivity).
    rewrite !byte_of_to_N. reflexivity.
  - cbn [b64encode].
    rewrite a2b_loop_pair by apply to_N_lt.
    rewrite a2b_loop_third by apply to_N_lt.
    rewrite a2b_loop_fourth by apply to_N_lt.
    rewrite IH, !byte_of_to_N. reflexivity.
Qed.

Lemma is_ascii_b64encode (raw : list byte) : is_ascii_str (b64encode raw) = true.
Proof.
  assert (forall v, v < 64 -> (N_of_ascii (b2a_char v) <? 128) = true) as Hc.
  { intros v Hv. apply char_ok_lt in Hv. unfold char_ok in Hv.
    destruct (a2b_char (b2a_char v)); [|discriminate].
    apply andb_prop in Hv as [_ Hv]. exact Hv. }
  induction raw as [|a|a b|a b c l IH] using list_ind3.
  - reflexivity.
  - destruct (quad_facts (Byte.to_N a) 0 (to_N_lt a) eq_refl) as ((H1 & H2 & _) & _).
    cbn [b64encode is_ascii_str]. rewrite !Hc by assumption. reflexivity.
  - destruct (quad_facts (Byte.to_N a) (Byte.to_N b) (to_N_lt a) (to_N_lt b)) as ((H1 & H2 & _) & _).
    destruct (quad_facts (Byte.to_N b) 0 (to_N_lt b) eq_refl) as ((_ & _ & H3 & _) & _).
    cbn [b64encode is_ascii_str]. rewrite !Hc by assumption. reflexivity.
  - destruct (quad_facts (Byte.to_N a) (Byte.to_N b) (to_N_lt a) (to_N_lt b)) as ((H1 & H2 & _) & _).
    destruct (quad_facts (Byte.to_N b) (Byte.to_N c) (to_N_lt b) (to_N_lt c)) as ((_ & _ & H3 & _) & _).
    destruct (quad_facts (Byte.to_N c) 0 (to_N_lt c) eq_refl) as ((_ & _ & _ & H4) & _).
    cbn [b64encode is_ascii_str]. rewrite !Hc, IH by assumption. reflexivity.
Qed.

(** Decoding what [b64encode] produced gives the bytes back. *)
Lemma b64decode_b64encode (raw : list byte) :
  b64decode (b64encode raw) = Some raw.
Proof.
  unfold b64decode. rewrite is_ascii_b64encode. apply a2b_loop_b64encode.
Qed.

(** Only the empty byte string encodes to the empty string. *)
Lemma b64encode_nonempty (raw : list byte) :
  raw <> [] -> Py.truthy (Some (b64encode raw)) = true.
Proof.
  intros Hne. destruct raw as [|a [|b [|c l]]]; [congruence|reflexivity..].
Qed.

End Base64Facts.

(** ** Queries *)

Section Queries.
Context {A : Type}.

Lemma insert_desc_perm (key : A -> datetime) (x : A) (l : list A) :
  insert_desc key x l ≡ₚ x :: l.
Proof.
  induction l as [|y l IH]; cbn [insert_desc]; [reflexivity|].
  destruct (datetime_ltb (key x) (key y)); [|reflexivity].
  rewrite IH. apply Permutation_swap.
Qed.

(** Ordering a table keeps its rows. *)
Lemma order_by_desc_perm (key : A -> datetime) (table : list A) :
  order_by_desc key table ≡ₚ table.
Proof.
  induction table as [|x l IH]; [reflexivity|].
  unfold order_by_desc in *. cbn [foldr].
  rewrite insert_desc_perm. by rewrite IH.
Qed.

Lemma order_by_desc_elem (key : A -> datetime) (table : list A) (r : A) :
  r ∈ order_by_desc key table <-> r ∈ table.
Proof. by rewrite order_by_desc_perm. Qed.

(** Every key in a table is below the next one handed out. *)
Lemma next_id_above (pk : A -> Z) (table : list A) (r : A) :
  r ∈ table -> (pk r < next_id pk table)%Z.
Proof.
  unfold next_id. induction table as [|y l IH]; intros Hin.
  - by apply elem_of_nil in Hin.
  - cbn [fmap list_fmap foldr] in *. apply elem_of_cons in Hin as [->|Hin].
    + lia.
    + specialize (IH Hin). lia.
Qed.

Lemma query_get_fresh (pk : A -> Z) (table : list A) :
  query_get pk table (next_id pk table) = None.
Proof.
  pose proof (next_id_above pk table) as Habove.
  generalize dependent (next_id pk table). intros n Habove.
  unfold query_get. induction table as [|y l IH]; [reflexivity|].
  cbn [List.find]. rewrite bool_decide_eq_false_2.
  - apply IH. intros r Hin. apply Habove. by apply list_elem_of_further.
  - specialize (Habove y (list_elem_of_here _ _)). lia.
Qed.

(** A row inserted under the next key is the one [get] finds for it. *)
Lemma query_get_inserted (pk : A -> Z) (table : list A) (r : A) :
  pk r = next_id pk table ->
  query_get pk (table ++ [r]) (next_id pk table) = Some r.
Proof.
  intros Hpk. pose proof (query_get_fresh pk table) as Hnone.
  unfold query_get in *. generalize dependent (next_id pk table). intros n Hpk Hnone.
  induction table as [|y l IH]; cbn [List.find app] in *.
  - by rewrite bool_decide_eq_true_2.
  - destruct (bool_decide (pk y = n)); [discriminate|]. by apply IH.
Qed.

Lemma query_get_Some (pk : A -> Z) (table : list A) (i : Z) (r : A) :
  query_get pk table i = Some r -> r ∈ table /\ pk r = i.
Proof.
  unfold query_get. intros H. apply find_some in H as [Hin Hpk].
  split; [by apply list_elem_of_In|]. by apply bool_decide_eq_true in Hpk.
Qed.

End Queries.

Lemma authenticated_Some (cu : CurrentUser) (u : User.t) :
  authenticated cu = Some u <-> cu = SessionUser true u.
Proof.
  split; [|by intros ->].
  destruct cu as [|[] v]; cbn; intros H; by simplify_eq.
Qed.

Lemma truthy_nonempty (s : option string) :
  Py.truthy s = true <-> exists t, Py.nonempty s = Some t.
Proof.
  unfold Py.truthy. destruct (Py.nonempty s); split; intros H; eauto; try done.
  by destruct H.
Qed.

Lemma isin_true (x : string) (l : list string) : Py.isin x l = true <-> x ∈ l.
Proof. unfold Py.isin. apply bool_decide_eq_true. Qed.

Lemma isin_false (x : string) (l : list string) : Py.isin x l = false <-> x ∉ l.
Proof. unfold Py.isin. apply bool_decide_eq_false. Qed.

(** ** The patient directory *)

Lemma page_patients_patient (u : User.t) (db : DB) :
  User.role u = "patient" ->
  page_patients (SessionUser true u) db = PatientRegistryCard.
Proof. intros Hr. unfold page_patients. cbn. by rewrite Hr. Qed.

Lemma page_patients_other (u : User.t) (db : DB) :
  User.role u <> "patient" ->
  page_patients (SessionUser true u) db =
  RegisteredPatients (patient_row <$> users_with_role "patient" (users db)).
Proof.
  intros Hr. unfold page_patients. cbn. by rewrite bool_decide_eq_false_2.
Qed.

(** The search callback of the same table does refuse a doctor. *)
Lemma filter_patients_refused (u : User.t) (q : option string) (db : DB) :
  User.role u ∉ ["admin"; "researcher"] ->
  filter_patients (SessionUser true u) q db = [].
Proof.
  intros Hr. unfold filter_patients. cbn.
  apply isin_false in Hr. by rewrite Hr.
Qed.

Lemma filter_patients_all (u : User.t) (db : DB) :
  User.role u ∈ ["admin"; "researcher"] ->
  filter_patients (SessionUser true u) None db =
  patient_row <$> users_with_role "patient" (users db).
Proof.
  intros Hr. unfold filter_patients. cbn.
  apply isin_true in Hr. by rewrite Hr.
Qed.

(** C1 (where the code departs from it): [page_patients] turns away only a
    visitor and a patient, so a doctor is handed the page an admin is handed,
    with every registered patient in the table; the search callback
    [filter_patients] of that table gives the same doctor no row. *)
Theorem page_patients_doctor (u : User.t) (db : DB) :
  User.role u = "doctor" ->
  page_patients (SessionUser true u) db =
    RegisteredPatients (patient_row <$> users_with_role "patient" (users db))
  /\ page_patients (SessionUser true u) db =
     page_patients (SessionUser true (set_role "admin" u)) db
  /\ filter_patients (SessionUser true u) None db = [].
Proof.
  intros Hr. split; [|split].
  - apply page_patients_other. by rewrite Hr.
  - rewrite !page_patients_other; [done|done|by rewrite Hr].
  - apply filter_patients_refused. rewrite Hr. by apply isin_false.
Qed.

Lemma page_patients_doctor_witness :
  User.role Sample.doctor = "doctor"
  /\ page_patients (SessionUser true Sample.doctor) Sample.db =
     RegisteredPatients
       [{| PatientRow.Name := "P. Roy"; PatientRow.Email := "p1@x.org";
           PatientRow.Affiliation := ""; PatientRow.Joined := "2025-01-15" |}].
Proof.
  split; [reflexivity|].
  destruct (page_patients_doctor Sample.doctor Sample.db eq_refl) as [H _].
  rewrite H. vm_compute. reflexivity.
Defined.

(** ** The dataset listing *)

Lemma dataset_rows_elem (db : DB) (ds : Dataset.t) :
  ds ∈ datasets db -> dataset_row (users_dict (users db)) ds ∈ dataset_rows db.
Proof.
  intros Hin. unfold dataset_rows. apply list_elem_of_fmap_2.
  by apply order_by_desc_elem.
Qed.

Lemma dataset_rows_length (db : DB) : length (dataset_rows db) = length (datasets db).
Proof.
  unfold dataset_rows. rewrite length_fmap.
  apply Permutation_length, order_by_desc_perm.
Qed.

(** C2 (as stated, refuted): a doctor and a patient are both handed the row
    of the only dataset, which is researchers-only. *)
Lemma restricted_dataset_listed :
  page_data (SessionUser true Sample.doctor) Sample.db_restricted =
    DataHub [{| DatasetRow.ID := 1; DatasetRow.Title := "Cohort"; DatasetRow.Tags := "";
                DatasetRow.Visibility := "researchers"; DatasetRow.Uploaded_by := "R. Lee";
                DatasetRow.Date := "2025-01-15"; DatasetRow.Link := "";
                DatasetRow.File := "Yes" |}]
  /\ page_data (SessionUser true Sample.patient) Sample.db_restricted =
     page_data (SessionUser true Sample.doctor) Sample.db_restricted.
Proof. split; vm_compute; reflexivity. Qed.

(** C2 (amended): visibility restricts download, not list exposure.  The
    listing handed to any authenticated actor has one row per dataset,
    whatever its visibility, and shows the flag; the download of a
    researchers-only dataset with a stored file is refused (403) to an actor
    whose role is neither admin nor researcher. *)
Theorem dataset_listing_ignores_visibility (cu : CurrentUser) (u : User.t)
    (db : DB) (ds : Dataset.t) :
  authenticated cu = Some u ->
  ds ∈ datasets db ->
  (exists rows,
      page_data cu db = DataHub rows
      /\ length rows = length (datasets db)
      /\ dataset_row (users_dict (users db)) ds ∈ rows
      /\ DatasetRow.Visibility (dataset_row (users_dict (users db)) ds) = Dataset.visibility ds)
  /\ (Dataset.visibility ds = "researchers" ->
      User.role u ∉ ["admin"; "researcher"] ->
      query_get Dataset.id (datasets db) (Dataset.id ds) = Some ds ->
      Py.nonempty_bytes (Dataset.file_bytes ds) <> None ->
      download_dataset cu (Dataset.id ds) db = Abort 403).
Proof.
  intros Hcu Hin. split.
  - exists (dataset_rows db). unfold page_data. rewrite Hcu.
    auto using dataset_rows_length, dataset_rows_elem.
  - intros Hvis Hrole Hget Hbytes. unfold download_dataset.
    rewrite Hcu, Hget. destruct (Py.nonempty_bytes _); [|done].
    apply isin_false in Hrole. rewrite Hrole, Hvis. reflexivity.
Qed.

Lemma dataset_listing_ignores_visibility_witness :
  (exists rows,
      page_data (SessionUser true Sample.doctor) Sample.db_restricted = DataHub rows
      /\ length rows = 1
      /\ dataset_row (users_dict (users Sample.db_restricted)) Sample.restricted ∈ rows
      /\ DatasetRow.Visibility
           (dataset_row (users_dict (users Sample.db_restricted)) Sample.restricted)
         = "researchers")
  /\ download_dataset (SessionUser true Sample.doctor) 1 Sample.db_restricted = Abort 403.
Proof.
  destruct (dataset_listing_ignores_visibility
              (SessionUser true Sample.doctor) Sample.doctor
              Sample.db_restricted Sample.restricted eq_refl)
    as [Hlist Hdown].
  - apply list_elem_of_here.
  - split; [exact Hlist|]. apply Hdown.
    + reflexivity.
    + by apply isin_false.
    + reflexivity.
    + discriminate.
Defined.

(** ** Chat channels *)

Lemma can_access_channel_table (u : User.t) (ch : string) :
  User.role u ∈ roles -> ch ∈ channels ->
  can_access_channel u (Some ch) = channel_allowed (User.role u) ch.
Proof.
  intros Hr Hch. unfold channels in Hch. unfold can_access_channel, Py.isin.
  unfold roles in Hr.
  repeat (apply elem_of_cons in Hch as [->|Hch]); [..|by apply elem_of_nil in Hch];
    repeat (apply elem_of_cons in Hr as [->|Hr]); try (by apply elem_of_nil in Hr);
    reflexivity.
Qed.

Lemma refresh_chat_gate (u : User.t) (ch : option string) (db : DB) :
  refresh_chat (SessionUser true u) ch db =
  if can_access_channel u ch
  then (FeedMessages
          (chat_item (users_dict (users db)) <$>
             rev (take 60 (order_by_desc ChatMessage.created_at
                             (List.filter
                                (fun m => bool_decide (Some (ChatMessage.channel m) = ch))
                                (chat_messages db))))),
        mk_Alert "" "success" false)
  else (FeedNoAccess, mk_Alert "Restricted channel." "danger" true).
Proof. unfold refresh_chat. cbn. by destruct (can_access_channel u ch). Qed.

Lemma send_chat_refused (u : User.t) (now : datetime) (ch text : option string) (db : DB) :
  can_access_channel u ch = false ->
  send_chat (SessionUser true u) now ch text db =
  ((no_update, mk_Alert "Restricted channel." "danger" true), db).
Proof. intros H. unfold send_chat. cbn. by rewrite H. Qed.

Lemma send_chat_sent (u : User.t) (now : datetime) (ch : string) (text : option string)
    (msg : string) (db : DB) :
  can_access_channel u (Some ch) = true ->
  Py.nonempty (Py.strip <$> Py.nonempty text) = Some msg ->
  send_chat (SessionUser true u) now (Some ch) text db =
  ((Value "", mk_Alert "Sent." "success" true),
   add_chat_message
     {| ChatMessage.id := next_id ChatMessage.id (chat_messages db);
        ChatMessage.channel := ch; ChatMessage.message := msg;
        ChatMessage.created_at := now; ChatMessage.created_by := User.id u |} db).
Proof. intros H Hmsg. unfold send_chat. cbn. by rewrite H, Hmsg. Qed.

(** C4: for each of the four roles and the three channels, reading the feed
    and sending a message are both granted exactly where the table of
    section 4.2 has a tick: [can_access_channel] is the table, an allowed
    role gets the feed and has its message stored in that channel, and a
    role the table does not list gets the restricted notice from both
    callbacks, with no message stored. *)
Theorem channel_access_matches_table (u : User.t) (ch : string) (now : datetime)
    (text : option string) (db : DB) :
  User.role u ∈ roles -> ch ∈ channels ->
  can_access_channel u (Some ch) = channel_allowed (User.role u) ch
  /\ (channel_allowed (User.role u) ch = true ->
      (exists items, refresh_chat (SessionUser true u) (Some ch) db =
                       (FeedMessages items, mk_Alert "" "success" false))
      /\ (forall msg, Py.nonempty (Py.strip <$> Py.nonempty text) = Some msg ->
          exists m, send_chat (SessionUser true u) now (Some ch) text db =
                      ((Value "", mk_Alert "Sent." "success" true), add_chat_message m db)
                    /\ ChatMessage.channel m = ch
                    /\ ChatMessage.message m = msg
                    /\ ChatMessage.created_by m = User.id u))
  /\ (channel_allowed (User.role u) ch = false ->
      refresh_chat (SessionUser true u) (Some ch) db =
        (FeedNoAccess, mk_Alert "Restricted channel." "danger" true)
      /\ send_chat (SessionUser true u) now (Some ch) text db =
         ((no_update, mk_Alert "Restricted channel." "danger" true), db)).
Proof.
  intros Hr Hch. pose proof (can_access_channel_table u ch Hr Hch) as Htab.
  split; [exact Htab|]. rewrite <- Htab. split; intros Hacc.
  - split.
    + rewrite refresh_chat_gate, Hacc. eauto.
    + intros msg Hmsg. eexists. split; [by apply send_chat_sent|]. done.
  - split.
    + by rewrite refresh_chat_gate, Hacc.
    + by apply send_chat_refused.
Qed.

(** The twelve cells of the table. *)
Example channel_table_cells :
  (fun ch => (fun r => channel_allowed r ch) <$> roles) <$> channels =
  [[true; true; true; true]; [true; true; true; false]; [true; false; false; true]].
Proof. reflexivity. Qed.

Lemma channel_access_matches_table_witness :
  can_access_channel Sample.patient (Some "research") = false
  /\ refresh_chat (SessionUser true Sample.patient) (Some "research") Sample.db =
       (FeedNoAccess, mk_Alert "Restricted channel." "danger" true)
  /\ send_chat (SessionUser true Sample.patient) Sample.t1 (Some "research") (Some "hello")
       Sample.db = ((no_update, mk_Alert "Restricted channel." "danger" true), Sample.db)
  /\ exists m, send_chat (SessionUser true Sample.doctor) Sample.t1 (Some "research")
                 (Some " hello ") Sample.db =
                 ((Value "", mk_Alert "Sent." "success" true), add_chat_message m Sample.db)
               /\ ChatMessage.channel m = "research"
               /\ ChatMessage.message m = "hello"
               /\ ChatMessage.created_by m = 3%Z.
Proof.
  destruct (channel_access_matches_table Sample.patient "research" Sample.t1
              (Some "hello") Sample.db) as (Hc & _ & Hdeny).
  { unfold roles. cbn. repeat constructor. }
  { unfold channels. repeat constructor. }
  destruct (Hdeny eq_refl) as [Hfeed Hsend].
  destruct (channel_access_matches_table Sample.doctor "research" Sample.t1
              (Some " hello ") Sample.db) as (_ & Hallow & _).
  { unfold roles. cbn. repeat constructor. }
  { unfold channels. repeat constructor. }
  destruct (Hallow eq_refl) as [_ Hsent].
  split; [exact Hc|]. split; [exact Hfeed|]. split; [exact Hsend|].
  exact (Hsent "hello" eq_refl).
Defined.

(** ** Publishing *)

Lemma staged_file_encoded (raw : list byte) (filename : option string) :
  raw <> [] ->
  staged_file (Some {| UploadStore.bytes_b64 := Base64.b64encode raw;
                       UploadStore.filename := filename |}) =
  Py.Returned (filename, Some raw).
Proof.
  intros Hne. unfold staged_file. cbn [UploadStore.bytes_b64 UploadStore.filename].
  pose proof (b64encode_nonempty raw Hne) as Ht. unfold Py.truthy in Ht.
  destruct (Py.nonempty (Some (Base64.b64encode raw))) as [s|] eqn:Hs; [|discriminate].
  assert (s = Base64.b64encode raw) as ->.
  { cbn in Hs. destruct (Base64.b64encode raw); by simplify_eq. }
  by rewrite b64decode_b64encode.
Qed.

(** Whatever an upload callback stored can be attached: the publish
    callbacks do not raise on it. *)
Lemma staged_file_cached (contents filename : option string)
    (store : option UploadStore.t) (meta : UploadMeta) :
  cache_ds_upload contents filename = Py.Returned (store, meta) ->
  exists file, staged_file store = Py.Returned file.
Proof.
  unfold cache_ds_upload. intros H.
  destruct (Py.nonempty contents); [|simplify_eq; by eexists].
  destruct (Py.split_comma _) as [[hd payload]|]; [|discriminate].
  destruct (Base64.b64decode payload) as [raw|]; [|discriminate].
  simplify_eq. destruct raw as [|x raw].
  - by eexists.
  - rewrite staged_file_encoded by done. by eexists.
Qed.

Lemma cache_paper_upload_same (contents filename : option string) :
  cache_paper_upload contents filename = cache_ds_upload contents filename.
Proof. reflexivity. Qed.

Section PublishDataset.
Context (cu : CurrentUser) (now : datetime) (title desc link tags vis : option string)
        (upload_store : option UploadStore.t) (db : DB).

Lemma publish_dataset_anonymous :
  authenticated cu = None ->
  publish_dataset cu now title desc link tags vis upload_store db =
  (Py.Returned (mk_Alert "Please log in." "warning" true, no_update), db).
Proof. intros H. unfold publish_dataset. by rewrite H. Qed.

Lemma publish_dataset_untitled :
  Py.truthy title = false ->
  exists msg,
    publish_dataset cu now title desc link tags vis upload_store db =
    (Py.Returned (mk_Alert msg "warning" true, no_update), db).
Proof.
  unfold Py.truthy, publish_dataset. intros H.
  destruct (authenticated cu); [|by eexists].
  destruct (Py.nonempty title); [discriminate|by eexists].
Qed.

Lemma publish_dataset_refused (u : User.t) (t : string) :
  authenticated cu = Some u ->
  Py.nonempty title = Some t ->
  vis = Some "researchers" ->
  User.role u ∉ ["admin"; "researcher"] ->
  publish_dataset cu now title desc link tags vis upload_store db =
  (Py.Returned (mk_Alert "Only researchers/admin can post researcher-only items."
                         "danger" true, no_update), db).
Proof.
  intros Hcu Ht -> Hr. unfold publish_dataset. rewrite Hcu, Ht.
  apply isin_false in Hr. by rewrite Hr.
Qed.

Lemma publish_dataset_restricted (u : User.t) (t : string)
    (file_name : option string) (file_bytes : option (list byte)) :
  authenticated cu = Some u ->
  Py.nonempty title = Some t ->
  vis = Some "researchers" ->
  User.role u ∈ ["admin"; "researcher"] ->
  staged_file upload_store = Py.Returned (file_name, file_bytes) ->
  let ds := {| Dataset.id := next_id Dataset.id (datasets db);
               Dataset.title := Py.strip t;
               Dataset.description := Py.strip_or_none desc;
               Dataset.link := Py.strip_or_none link;
               Dataset.tags := Py.strip_or_none tags;
               Dataset.visibility := "researchers";
               Dataset.created_at := now;
               Dataset.uploaded_by := User.id u;
               Dataset.file_name := file_name;
               Dataset.file_bytes := file_bytes |} in
  publish_dataset cu now title desc link tags vis upload_store db =
  (Py.Returned (published, Value (dataset_rows (add_dataset ds db))), add_dataset ds db).
Proof.
  intros Hcu Ht -> Hr Hfile. unfold publish_dataset. rewrite Hcu, Ht, Hfile.
  apply isin_true in Hr. by rewrite Hr.
Qed.

(** Every way out of [publish_dataset] but the last leaves the database as
    it was. *)
Lemma publish_dataset_outcome :
  (exists alert,
      publish_dataset cu now title desc link tags vis upload_store db =
        (Py.Returned (alert, no_update), db)
      /\ alert <> published)
  \/ (exists e,
      publish_dataset cu now title desc link tags vis upload_store db = (Py.Raised e, db))
  \/ (exists ds,
      publish_dataset cu now title desc link tags vis upload_store db =
        (Py.Returned (published, Value (dataset_rows (add_dataset ds db))), add_dataset ds db)).
Proof.
  unfold publish_dataset.
  destruct (authenticated cu); [|left; by eexists].
  destruct (Py.nonempty title); [|left; by eexists].
  destruct (_ && _); [left; by eexists|].
  destruct (staged_file upload_store) as [[fn fb]|e].
  - right; right. by eexists.
  - right; left. by eexists.
Qed.

End PublishDataset.

Section PublishPaper.
Context (cu : CurrentUser) (now : datetime) (title link tags summary : option string)
        (upload_store : option UploadStore.t) (db : DB).

Lemma publish_paper_anonymous :
  authenticated cu = None ->
  publish_paper cu now title link tags summary upload_store db =
  (Py.Returned (mk_Alert "Please log in." "warning" true, no_update), db).
Proof. intros H. unfold publish_paper. by rewrite H. Qed.

Lemma publish_paper_untitled :
  Py.truthy title = false ->
  exists msg,
    publish_paper cu now title link tags summary upload_store db =
    (Py.Returned (mk_Alert msg "warning" true, no_update), db).
Proof.
  unfold Py.truthy, publish_paper. intros H.
  destruct (authenticated cu); [|by eexists].
  destruct (Py.nonempty title); [discriminate|by eexists].
Qed.

Lemma publish_paper_published (u : User.t) (t : string)
    (file_name : option string) (file_bytes : option (list byte)) :
  authenticated cu = Some u ->
  Py.nonempty title = Some t ->
  staged_file upload_store = Py.Returned (file_name, file_bytes) ->
  let p := {| Paper.id := next_id Paper.id (papers db);
              Paper.title := Py.strip t;
              Paper.link := Py.strip_or_none link;
              Paper.tags := Py.strip_or_none tags;
              Paper.summary := Py.strip_or_none summary;
              Paper.created_at := now;
              Paper.uploaded_by := User.id u;
              Paper.file_name := file_name;
              Paper.file_bytes := file_bytes |} in
  publish_paper cu now title link tags summary upload_store db =
  (Py.Returned (published, Value (paper_rows (add_paper p db))), add_paper p db).
Proof.
  intros Hcu Ht Hfile. unfold publish_paper. by rewrite Hcu, Ht, Hfile.
Qed.

Lemma publish_paper_outcome :
  (exists alert,
      publish_paper cu now title link tags summary upload_store db =
        (Py.Returned (alert, no_update), db)
      /\ alert <> published)
  \/ (exists e,
      publish_paper cu now title link tags summary upload_store db = (Py.Raised e, db))
  \/ (exists p,
      publish_paper cu now title link tags summary upload_store db =
        (Py.Returned (published, Value (paper_rows (add_paper p db))), add_paper p db)).
Proof.
  unfold publish_paper.
  destruct (authenticated cu); [|left; by eexists].
  destruct (Py.nonempty title); [|left; by eexists].
  destruct (staged_file upload_store) as [[fn fb]|e].
  - right; right. by eexists.
  - right; left. by eexists.
Qed.

End PublishPaper.

(** C5: publishing a dataset flagged researchers-only, with a title: a
    patient or a doctor gets the alert that only researchers and admins may
    post such items, and the database stays as it was; an admin or a
    researcher gets the dataset stored, flagged, under their id, with
    whatever an upload staged. *)
Theorem publish_restricted_dataset_by_role (u : User.t) (now : datetime)
    (title desc link tags : option string) (t : string)
    (upload_store : option UploadStore.t) (db : DB) :
  Py.nonempty title = Some t ->
  (User.role u ∈ ["patient"; "doctor"] ->
   publish_dataset (SessionUser true u) now title desc link tags (Some "researchers")
     upload_store db =
   (Py.Returned (mk_Alert "Only researchers/admin can post researcher-only items."
                          "danger" true, no_update), db))
  /\ (User.role u ∈ ["admin"; "researcher"] ->
      forall contents filename meta,
        cache_ds_upload contents filename = Py.Returned (upload_store, meta) ->
        exists ds,
          publish_dataset (SessionUser true u) now title desc link tags (Some "researchers")
            upload_store db =
          (Py.Returned (published, Value (dataset_rows (add_dataset ds db))),
           add_dataset ds db)
          /\ datasets (add_dataset ds db) = (datasets db ++ [ds])%list
          /\ Dataset.visibility ds = "researchers"
          /\ Dataset.uploaded_by ds = User.id u
          /\ Dataset.title ds = Py.strip t
          /\ query_get Dataset.id (datasets (add_dataset ds db)) (Dataset.id ds) = Some ds).
Proof.
  intros Ht. split.
  - intros Hr. apply (publish_dataset_refused _ _ _ _ _ _ _ _ _ u t); try done.
    intros Hin. set_unfold. destruct Hr as [Hr|[Hr|[]]]; rewrite Hr in Hin;
      destruct Hin as [?|[?|[]]]; discriminate.
  - intros Hr contents filename meta Hcache.
    destruct (staged_file_cached _ _ _ _ Hcache) as [[fn fb] Hfile].
    eexists. split.
    + by apply (publish_dataset_restricted _ _ _ _ _ _ _ _ _ u t fn fb).
    + repeat split. cbn. by apply query_get_inserted.
Qed.

Lemma publish_restricted_dataset_by_role_witness :
  publish_dataset (SessionUser true Sample.patient) Sample.t1 (Some "Cohort") None None None
    (Some "researchers") None Sample.db =
  (Py.Returned (mk_Alert "Only researchers/admin can post researcher-only items."
                         "danger" true, no_update), Sample.db)
  /\ exists ds,
       publish_dataset (SessionUser true Sample.researcher) Sample.t1 (Some "Cohort")
         None None None (Some "researchers") None Sample.db =
       (Py.Returned (published, Value (dataset_rows (add_dataset ds Sample.db))),
        add_dataset ds Sample.db)
       /\ datasets (add_dataset ds Sample.db) = (datasets Sample.db ++ [ds])%list
       /\ Dataset.visibility ds = "researchers"
       /\ Dataset.uploaded_by ds = 2%Z
       /\ Dataset.title ds = Py.strip "Cohort"
       /\ query_get Dataset.id (datasets (add_dataset ds Sample.db)) (Dataset.id ds) = Some ds.
Proof.
  split.
  - refine (proj1 (publish_restricted_dataset_by_role Sample.patient Sample.t1
                     (Some "Cohort") None None None "Cohort" None Sample.db eq_refl) _).
    apply list_elem_of_here.
  - refine (proj2 (publish_restricted_dataset_by_role Sample.researcher Sample.t1
                     (Some "Cohort") None None None "Cohort" None Sample.db eq_refl)
              _ None None NoCaption eq_refl).
    apply list_elem_of_further, list_elem_of_here.
Defined.

(** C9: a publish that stops at a check stores nothing.  For a paper, a
    visitor or a missing title; for a dataset, those two and a
    researchers-only flag the actor's role does not allow: the callback
    returns an alert that is not the success one, [no_update] for the table,
    and the database it was given.  More generally, whatever the inputs, the
    callback either hands the database back untouched or stores one whole
    record and reports success. *)
Theorem failed_publish_stores_nothing (cu : CurrentUser) (now : datetime)
    (title desc link tags summary vis : option string)
    (upload_store : option UploadStore.t) (db : DB) :
  (authenticated cu = None \/ Py.truthy title = false ->
   exists alert,
     publish_paper cu now title link tags summary upload_store db =
       (Py.Returned (alert, no_update), db)
     /\ alert <> published)
  /\ (authenticated cu = None \/ Py.truthy title = false
      \/ (exists u, authenticated cu = Some u /\ vis = Some "researchers"
                    /\ User.role u ∉ ["admin"; "researcher"]) ->
      exists alert,
        publish_dataset cu now title desc link tags vis upload_store db =
          (Py.Returned (alert, no_update), db)
        /\ alert <> published)
  /\ (forall out db',
        publish_paper cu now title link tags summary upload_store db = (out, db') ->
        db' = db
        \/ exists p, db' = add_paper p db
                     /\ out = Py.Returned (published, Value (paper_rows db')))
  /\ (forall out db',
        publish_dataset cu now title desc link tags vis upload_store db = (out, db') ->
        db' = db
        \/ exists ds, db' = add_dataset ds db
                      /\ out = Py.Returned (published, Value (dataset_rows db'))).
Proof.
  split; [|split; [|split]].
  - intros [Hcu|Ht].
    + rewrite publish_paper_anonymous by done. by eexists.
    + destruct (publish_paper_untitled cu now title link tags summary upload_store db Ht)
        as [msg ->]. by eexists.
  - intros [Hcu|[Ht|(u & Hcu & Hvis & Hr)]].
    + rewrite publish_dataset_anonymous by done. by eexists.
    + destruct (publish_dataset_untitled cu now title desc link tags vis upload_store db Ht)
        as [msg ->]. by eexists.
    + destruct (Py.nonempty title) as [t|] eqn:Ht.
      * rewrite (publish_dataset_refused _ _ _ _ _ _ _ _ _ u t) by done. by eexists.
      * destruct (publish_dataset_untitled cu now title desc link tags vis upload_store db)
          as [msg ->]; [unfold Py.truthy; by rewrite Ht|]. by eexists.
  - intros out db' H.
    destruct (publish_paper_outcome cu now title link tags summary upload_store db)
      as [(a & Ha & _)|[(e & He)|(p & Hp)]]; rewrite H in *; simplify_eq; eauto.
  - intros out db' H.
    destruct (publish_dataset_outcome cu now title desc link tags vis upload_store db)
      as [(a & Ha & _)|[(e & He)|(p & Hp)]]; rewrite H in *; simplify_eq; eauto.
Qed.

Lemma failed_publish_stores_nothing_witness :
  (exists alert,
      publish_paper AnonymousUser Sample.t1 (Some "SLC44A1 review") None None None None
        Sample.db = (Py.Returned (alert, no_update), Sample.db)
      /\ alert <> published)
  /\ (exists alert,
      publish_paper (SessionUser true Sample.patient) Sample.t1 (Some "") None None None None
        Sample.db = (Py.Returned (alert, no_update), Sample.db)
      /\ alert <> published)
  /\ (exists alert,
      publish_dataset (SessionUser true Sample.doctor) Sample.t1 (Some "Cohort") None None
        None (Some "researchers") None Sample.db = (Py.Returned (alert, no_update), Sample.db)
      /\ alert <> published).
Proof.
  split; [|split].
  - apply (failed_publish_stores_nothing AnonymousUser Sample.t1
             (Some "SLC44A1 review") None None None None None None Sample.db).
    left. reflexivity.
  - apply (failed_publish_stores_nothing (SessionUser true Sample.patient) Sample.t1
             (Some "") None None None None None None Sample.db).
    right. reflexivity.
  - apply (failed_publish_stores_nothing (SessionUser true Sample.doctor) Sample.t1
             (Some "Cohort") None None None None (Some "researchers") None Sample.db).
    right; right. exists Sample.doctor. repeat split. by apply isin_false.
Defined.

(** ** Staging and publishing *)

Lemma publish_paper_success (cu : CurrentUser) (now : datetime)
    (title link tags summary : option string) (upload_store : option UploadStore.t)
    (db db' : DB) (rows : Update (list PaperRow.t)) :
  publish_paper cu now title link tags summary upload_store db =
    (Py.Returned (published, rows), db') ->
  exists u t file_name file_bytes p,
    authenticated cu = Some u
    /\ Py.nonempty title = Some t
    /\ staged_file upload_store = Py.Returned (file_name, file_bytes)
    /\ db' = add_paper p db
    /\ Paper.file_name p = file_name /\ Paper.file_bytes p = file_bytes.
Proof.
  unfold publish_paper, published. intros H.
  destruct (authenticated cu) as [u|]; [|discriminate].
  destruct (Py.nonempty title) as [t|]; [|discriminate].
  destruct (staged_file upload_store) as [[fn fb]|e]; [|discriminate].
  simplify_eq. by eexists u, t, fn, fb, _.
Qed.

Lemma publish_dataset_success (cu : CurrentUser) (now : datetime)
    (title desc link tags vis : option string) (upload_store : option UploadStore.t)
    (db db' : DB) (rows : Update (list DatasetRow.t)) :
  publish_dataset cu now title desc link tags vis upload_store db =
    (Py.Returned (published, rows), db') ->
  exists file_name file_bytes ds,
    staged_file upload_store = Py.Returned (file_name, file_bytes)
    /\ db' = add_dataset ds db
    /\ Dataset.file_name ds = file_name /\ Dataset.file_bytes ds = file_bytes
    /\ forall now' title' desc' link' tags' db1,
         Py.truthy title' = true ->
         exists ds',
           publish_dataset cu now' title' desc' link' tags' vis upload_store db1 =
             (Py.Returned (published, Value (dataset_rows (add_dataset ds' db1))),
              add_dataset ds' db1)
           /\ Dataset.file_name ds' = file_name /\ Dataset.file_bytes ds' = file_bytes.
Proof.
  unfold publish_dataset, published. intros H.
  destruct (authenticated cu) as [u|]; [|discriminate].
  destruct (Py.nonempty title) as [t|]; [|discriminate].
  destruct (_ && _) eqn:Hvis; [discriminate|].
  destruct (staged_file upload_store) as [[fn fb]|e]; [|discriminate].
  simplify_eq. eexists fn, fb, _. repeat split.
  intros now' title' desc' link' tags' db1 Ht'.
  apply truthy_nonempty in Ht' as [t' ->]. cbn beta iota zeta. by eexists.
Qed.

(** C3 (as stated, refuted): one file is staged, Publish is clicked twice
    with no new file in between, and both papers carry the staged name and
    bytes; the store still holds the file afterwards. *)
Lemma staged_file_attached_twice :
  (fun p => (Paper.title p, Paper.file_name p, Paper.file_bytes p))
    <$> papers Sample.second_publish.2 =
  [("Lipidomics notes", Some "notes.pdf", Some Sample.raw);
   ("SLC44A1 review", Some "notes.pdf", Some Sample.raw)]
  /\ Sample.second_publish.1.1 =
     Py.Returned (published, Value (paper_rows Sample.second_publish.2))
  /\ Sample.second_publish.1.2 = Sample.staged
  /\ paper_upload_store Sample.staged =
     Some {| UploadStore.bytes_b64 := "AQID"; UploadStore.filename := Some "notes.pdf" |}.
Proof. repeat split; vm_compute; reflexivity. Qed.

(** C3 (amended): a publish reads the staged upload and leaves it in the
    store: the stores after [publish_paper] or [publish_dataset] are the
    stores before, and only an upload event replaces them.  So after a
    publish that went through, a later publish with a title by the same
    actor (for a dataset, under the same visibility), with no new file staged
    in between, goes through too and attaches the same file name and the same
    bytes. *)
Theorem publish_keeps_staged_upload (cu : CurrentUser) (now : datetime)
    (title desc link tags summary vis : option string) (st st1 : Stores) (db db1 : DB) :
  (on_paper_publish cu now title link tags summary st db).1.2 = st
  /\ (on_ds_publish cu now title desc link tags vis st db).1.2 = st
  /\ (forall rows,
        on_paper_publish cu now title link tags summary st db =
          (Py.Returned (published, rows), st1, db1) ->
        exists p1,
          st1 = st /\ db1 = add_paper p1 db
          /\ forall now' title' link' tags' summary',
               Py.truthy title' = true ->
               exists p2,
                 on_paper_publish cu now' title' link' tags' summary' st1 db1 =
                   (Py.Returned (published, Value (paper_rows (add_paper p2 db1))),
                    st, add_paper p2 db1)
                 /\ Paper.file_name p2 = Paper.file_name p1
                 /\ Paper.file_bytes p2 = Paper.file_bytes p1)
  /\ (forall rows,
        on_ds_publish cu now title desc link tags vis st db =
          (Py.Returned (published, rows), st1, db1) ->
        exists d1,
          st1 = st /\ db1 = add_dataset d1 db
          /\ forall now' title' desc' link' tags',
               Py.truthy title' = true ->
               exists d2,
                 on_ds_publish cu now' title' desc' link' tags' vis st1 db1 =
                   (Py.Returned (published, Value (dataset_rows (add_dataset d2 db1))),
                    st, add_dataset d2 db1)
                 /\ Dataset.file_name d2 = Dataset.file_name d1
                 /\ Dataset.file_bytes d2 = Dataset.file_bytes d1).
Proof.
  split; [|split; [|split]].
  - unfold on_paper_publish. by destruct (publish_paper _ _ _ _ _ _ _ _).
  - unfold on_ds_publish. by destruct (publish_dataset _ _ _ _ _ _ _ _ _).
  - intros rows H. unfold on_paper_publish in H.
    destruct (publish_paper _ _ _ _ _ _ _ _) as [out db'] eqn:Hpub. simplify_eq.
    apply publish_paper_success in Hpub
      as (u & t & fn & fb & p & Hcu & Ht & Hfile & -> & Hfn & Hfb).
    exists p. repeat split.
    intros now' title' link' tags' summary' Ht'.
    apply truthy_nonempty in Ht' as [t' Ht'].
    unfold on_paper_publish.
    rewrite (publish_paper_published _ _ _ _ _ _ _ _ u t' fn fb) by done.
    eexists. split; [reflexivity|]. by subst.
  - intros rows H. unfold on_ds_publish in H.
    destruct (publish_dataset _ _ _ _ _ _ _ _ _) as [out db'] eqn:Hpub. simplify_eq.
    apply publish_dataset_success in Hpub
      as (fn & fb & d & Hfile & -> & Hfn & Hfb & Hnext).
    exists d. repeat split.
    intros now' title' desc' link' tags' Ht'.
    destruct (Hnext now' title' desc' link' tags' (add_dataset d db) Ht')
      as (d' & Hpub' & Hfn' & Hfb').
    unfold on_ds_publish. rewrite Hpub'. exists d'. by subst.
Qed.

Lemma publish_keeps_staged_upload_witness :
  exists p1,
    Sample.first_publish.1.2 = Sample.staged
    /\ Sample.first_publish.2 = add_paper p1 Sample.db
    /\ exists p2,
         on_paper_publish (SessionUser true Sample.patient) Sample.t2
           (Some "SLC44A1 review") None None None
           Sample.first_publish.1.2 Sample.first_publish.2 =
         (Py.Returned (published, Value (paper_rows (add_paper p2 Sample.first_publish.2))),
          Sample.staged, add_paper p2 Sample.first_publish.2)
         /\ Paper.file_name p2 = Paper.file_name p1
         /\ Paper.file_bytes p2 = Paper.file_bytes p1.
Proof.
  destruct (publish_keeps_staged_upload (SessionUser true Sample.patient) Sample.t1
              (Some "Lipidomics notes") None None None None None
              Sample.staged Sample.first_publish.1.2 Sample.db Sample.first_publish.2)
    as (_ & _ & H & _).
  destruct (H (Value (paper_rows Sample.first_publish.2))) as (p1 & E1 & E2 & Hnext).
  { vm_compute. reflexivity. }
  exists p1. split; [exact E1|]. split; [exact E2|].
  exact (Hnext Sample.t2 (Some "SLC44A1 review") None None None eq_refl).
Defined.

(** ** Download of a published dataset *)

Lemma on_ds_upload_decoded (contents header payload : string) (raw : list byte)
    (filename : option string) (st : Stores) :
  Py.split_comma contents = Some (header, payload) ->
  Base64.b64decode payload = Some raw ->
  on_ds_upload (Some contents) filename st =
  {| paper_upload_store := paper_upload_store st;
     ds_upload_store := Some {| UploadStore.bytes_b64 := Base64.b64encode raw;
                                UploadStore.filename := filename |} |}.
Proof.
  intros Hsplit Hdec. unfold on_ds_upload, cache_ds_upload.
  destruct contents as [|c contents]; [discriminate|].
  cbn [Py.nonempty]. by rewrite Hsplit, Hdec.
Qed.

(** An empty file is staged as an empty string, which the publish callbacks
    take for no file at all. *)
Lemma staged_file_empty (filename : option string) :
  staged_file (Some {| UploadStore.bytes_b64 := Base64.b64encode [];
                       UploadStore.filename := filename |}) =
  Py.Returned (None, None).
Proof. reflexivity. Qed.

(** C6: a researchers-only dataset published with a staged file that has
    bytes in it: a doctor who asks for it gets 403, and an admin gets a file
    whose content is the byte sequence that was staged. *)
Theorem restricted_dataset_download_roundtrip
    (publisher doctor admin : User.t) (now : datetime)
    (title desc link tags filename : option string) (t contents header payload : string)
    (raw : list byte) (st : Stores) (db : DB) :
  User.role publisher ∈ ["admin"; "researcher"] ->
  User.role doctor = "doctor" ->
  User.role admin = "admin" ->
  Py.nonempty title = Some t ->
  Py.split_comma contents = Some (header, payload) ->
  Base64.b64decode payload = Some raw ->
  raw <> [] ->
  exists rows db',
    on_ds_publish (SessionUser true publisher) now title desc link tags (Some "researchers")
      (on_ds_upload (Some contents) filename st) db =
      (Py.Returned (published, rows), on_ds_upload (Some contents) filename st, db')
    /\ download_dataset (SessionUser true doctor) (next_id Dataset.id (datasets db)) db' =
       Abort 403
    /\ download_dataset (SessionUser true admin) (next_id Dataset.id (datasets db)) db' =
       SendFile raw
         (default ("dataset_" +:+ Py.str_int (next_id Dataset.id (datasets db)) +:+ ".bin")
                  (Py.nonempty filename))
         "application/octet-stream".
Proof.
  intros Hpub Hdoc Hadm Ht Hsplit Hdec Hne.
  rewrite (on_ds_upload_decoded _ _ _ _ _ _ Hsplit Hdec).
  unfold on_ds_publish. cbn [ds_upload_store].
  rewrite (publish_dataset_restricted _ _ _ _ _ _ _ _ _ publisher t filename (Some raw));
    [|done|done|done|done|by apply staged_file_encoded].
  eexists _, _. split; [reflexivity|].
  unfold download_dataset. cbn [authenticated add_dataset datasets].
  rewrite query_get_inserted by reflexivity.
  cbn [Dataset.file_bytes Dataset.visibility Dataset.file_name].
  destruct raw as [|x raw]; [done|]. cbn [Py.nonempty_bytes].
  rewrite Hdoc, Hadm. split; reflexivity.
Qed.

Lemma restricted_dataset_download_roundtrip_witness :
  exists rows db',
    on_ds_publish (SessionUser true Sample.researcher) Sample.t1 (Some "Cohort")
      None None None (Some "researchers")
      (on_ds_upload (Some Sample.contents) (Some "cohort.bin") (mk_Stores None None))
      Sample.db =
      (Py.Returned (published, rows),
       on_ds_upload (Some Sample.contents) (Some "cohort.bin") (mk_Stores None None), db')
    /\ download_dataset (SessionUser true Sample.doctor) 1 db' = Abort 403
    /\ download_dataset (SessionUser true Sample.admin) 1 db' =
       SendFile Sample.raw "cohort.bin" "application/octet-stream".
Proof.
  apply (restricted_dataset_download_roundtrip Sample.researcher Sample.doctor Sample.admin
           Sample.t1 (Some "Cohort") None None None (Some "cohort.bin") "Cohort"
           Sample.contents "data:application/octet-stream;base64" "AQID" Sample.raw
           (mk_Stores None None) Sample.db).
  - by apply isin_true.
  - reflexivity.
  - reflexivity.
  - reflexivity.
  - reflexivity.
  - reflexivity.
  - discriminate.
Defined.

(** ** Self-registration *)

Section Registration.
Context (generate_password_hash : string -> string) (now : datetime)
        (name affil email password role : option string) (consent : bool) (db : DB).

Lemma coerced_role_self_service : coerced_role role ∈ ["patient"; "researcher"].
Proof.
  unfold coerced_role. destruct (Py.isin_opt role _) eqn:H.
  - destruct role as [r|]; [|discriminate]. cbn in *. by apply isin_true.
  - apply list_elem_of_here.
Qed.

Lemma do_register_outcome :
  (exists alert,
      do_register generate_password_hash now name affil email password role consent db =
        (((alert, no_update), None), db)
      /\ color alert <> "success")
  \/ (exists u,
      do_register generate_password_hash now name affil email password role consent db =
        (((mk_Alert "Account created. Welcome!" "success" true, Value "/"), Some u),
         add_user u db)
      /\ User.role u = coerced_role role
      /\ User.is_active u = true
      /\ User.id u = next_id User.id (users db)).
Proof.
  unfold do_register.
  destruct consent; cbn [negb]; [|left; by eexists].
  destruct (Py.nonempty name); [|left; by eexists].
  destruct (Py.nonempty email); [|left; by eexists].
  destruct (Py.nonempty password); [|left; by eexists].
  destruct (negb _); [left; by eexists|].
  destruct (_ <? _)%nat; [left; by eexists|].
  destruct (user_by_email _ _); [left; by eexists|].
  right. by eexists.
Qed.

End Registration.

(** C7: whenever self-registration succeeds, the stored user has the
    requested role if that is patient or researcher, and patient for any
    other request (doctor, admin, anything else, or none); the stored role
    is never doctor or admin. *)
Theorem self_registration_role (generate_password_hash : string -> string)
    (now : datetime) (name affil email password role : option string) (consent : bool)
    (db db' : DB) (redirect : Update string) (signed_in : option User.t) :
  do_register generate_password_hash now name affil email password role consent db =
    (((mk_Alert "Account created. Welcome!" "success" true, redirect), signed_in), db') ->
  exists u,
    db' = add_user u db
    /\ signed_in = Some u
    /\ (role = Some "patient" -> User.role u = "patient")
    /\ (role = Some "researcher" -> User.role u = "researcher")
    /\ (role <> Some "patient" -> role <> Some "researcher" -> User.role u = "patient")
    /\ User.role u <> "doctor"
    /\ User.role u <> "admin".
Proof.
  intros H.
  destruct (do_register_outcome generate_password_hash now name affil email password
              role consent db) as [(a & Ha & Hcol)|(u & Hu & Hrole & _)];
    rewrite H in *; simplify_eq; try done.
  exists u. pose proof (coerced_role_self_service role) as Hin. rewrite <- Hrole in Hin.
  repeat split.
  - intros ->. by rewrite Hrole.
  - intros ->. by rewrite Hrole.
  - intros Hp Hres. rewrite Hrole. unfold coerced_role.
    destruct (Py.isin_opt role _) eqn:E; [|done].
    destruct role as [r|]; [|discriminate]. cbn in E. apply isin_true in E.
    set_unfold. destruct E as [->|[->|[]]]; done.
  - intros E. rewrite E in Hin. set_unfold. destruct Hin as [?|[?|[]]]; discriminate.
  - intros E. rewrite E in Hin. set_unfold. destruct Hin as [?|[?|[]]]; discriminate.
Qed.

Lemma self_registration_role_witness :
  exists u,
    (do_register Sample.generate_password_hash Sample.t1 (Some "New Doc") None
       (Some " Doc@X.org ") (Some "longpassword") (Some "doctor") true Sample.db).2
    = add_user u Sample.db
    /\ User.role u = "patient"
    /\ User.email u = "doc@x.org"
    /\ User.role u <> "doctor".
Proof.
  destruct (self_registration_role Sample.generate_password_hash Sample.t1 (Some "New Doc")
              None (Some " Doc@X.org ") (Some "longpassword") (Some "doctor") true Sample.db
              _ _ _ eq_refl)
    as (u & Hdb & _ & _ & _ & Hp & Hd & _).
  exists u. split; [exact Hdb|]. split; [by apply Hp|]. split; [|exact Hd].
  vm_compute in Hdb. by simplify_eq.
Defined.

(** ** Setting a role *)

Lemma query_get_update_user (uid : Z) (f : User.t -> User.t) (db : DB) (u : User.t) :
  (forall v, User.id (f v) = User.id v) ->
  query_get User.id (users db) uid = Some u ->
  query_get User.id (users (update_user uid f db)) uid = Some (f u).
Proof.
  intros Hid. unfold update_user, query_get. cbn [users].
  induction (users db) as [|v l IH]; [discriminate|].
  cbn [fmap list_fmap List.find]. case_bool_decide as Hv.
  - intros [= ->]. by rewrite bool_decide_eq_true_2 by (by rewrite Hid).
  - intros Hfind. rewrite bool_decide_eq_false_2 by done. by apply IH.
Qed.

Section SetRole.
Context (cu : CurrentUser) (selected : list nat) (data : list AdminRow.t)
        (new_role : option string) (db : DB).

Lemma set_role_not_admin :
  (forall a, authenticated cu = Some a -> User.role a <> "admin") ->
  admin_actions cu "btn-admin-setrole" selected data new_role db =
  (Py.Returned (mk_Alert "Not authorized." "danger" true, no_update), db).
Proof.
  intros Hna. unfold admin_actions.
  destruct (authenticated cu) as [a|]; [|done].
  by rewrite bool_decide_eq_false_2 by (by apply Hna).
Qed.

Context (a : User.t) (i : nat) (rest : list nat) (row : AdminRow.t).
Hypothesis Hadmin : authenticated cu = Some a /\ User.role a = "admin".
Hypothesis Hrow : selected = i :: rest /\ data !! i = Some row.

Lemma set_role_not_found :
  query_get User.id (users db) (AdminRow.ID row) = None ->
  admin_actions cu "btn-admin-setrole" selected data new_role db =
  (Py.Returned (mk_Alert "User not found." "danger" true, no_update), db).
Proof.
  destruct Hadmin as [Ha Hr], Hrow as [-> Hi]. intros Hget.
  unfold admin_actions. by rewrite Ha, Hr, Hi, Hget.
Qed.

Lemma set_role_invalid (u : User.t) :
  query_get User.id (users db) (AdminRow.ID row) = Some u ->
  Py.isin_opt new_role ["admin"; "researcher"; "patient"] = false ->
  admin_actions cu "btn-admin-setrole" selected data new_role db =
  (Py.Returned (mk_Alert "Invalid role." "warning" true, no_update), db).
Proof.
  destruct Hadmin as [Ha Hr], Hrow as [-> Hi]. intros Hget Hbad.
  unfold admin_actions. by rewrite Ha, Hr, Hi, Hget, Hbad.
Qed.

Lemma set_role_updates (u : User.t) (r : string) :
  query_get User.id (users db) (AdminRow.ID row) = Some u ->
  new_role = Some r ->
  r ∈ ["admin"; "researcher"; "patient"] ->
  admin_actions cu "btn-admin-setrole" selected data new_role db =
  (Py.Returned
     (mk_Alert ("Updated role for " +:+ User.email u +:+ " → " +:+ r +:+ ".") "success" true,
      Value (admin_row <$>
               order_by_desc User.created_at
                 (users (update_user (AdminRow.ID row) (set_role r) db)))),
   update_user (AdminRow.ID row) (set_role r) db).
Proof.
  destruct Hadmin as [Ha Hr], Hrow as [-> Hi]. intros Hget -> Hok.
  unfold admin_actions. rewrite Ha, Hr, Hi, Hget. cbn.
  apply isin_true in Hok. by rewrite Hok.
Qed.

End SetRole.

(** C8 (as stated, refuted): an admin asks for the role doctor, which is not
    settable, for a user id that is in no row of the table: the answer is
    that the user was not found, not that the role is invalid. *)
Lemma set_role_absent_target :
  admin_actions (SessionUser true Sample.admin) "btn-admin-setrole" [0%nat]
    [{| AdminRow.ID := 99; AdminRow.Name := "Gone"; AdminRow.Email := "g@x.org";
        AdminRow.Role := "patient"; AdminRow.Affiliation := ""; AdminRow.Active := "Yes";
        AdminRow.Joined := "2025-01-15" |}]
    (Some "doctor") Sample.db =
  (Py.Returned (mk_Alert "User not found." "danger" true, no_update), Sample.db).
Proof. vm_compute. reflexivity. Qed.

(** C8 (amended): a setRole request by an actor who is not an admin fails
    as not authorized whatever the target and the role; for an admin and a
    target that exists, it fails as an invalid role when the requested role
    is not admin, researcher or patient (doctor among the refused), and
    otherwise stores the requested role for the target; for an admin and a
    target that does not exist it fails as not found, whatever the role.
    Each failure leaves the database as it was. *)
Theorem set_role_outcomes (cu : CurrentUser) (selected : list nat)
    (data : list AdminRow.t) (new_role : option string) (db : DB) :
  ((forall a, authenticated cu = Some a -> User.role a <> "admin") ->
   admin_actions cu "btn-admin-setrole" selected data new_role db =
   (Py.Returned (mk_Alert "Not authorized." "danger" true, no_update), db))
  /\ (forall a i rest row,
        authenticated cu = Some a /\ User.role a = "admin" ->
        selected = i :: rest /\ data !! i = Some row ->
        match query_get User.id (users db) (AdminRow.ID row) with
        | None =>
            admin_actions cu "btn-admin-setrole" selected data new_role db =
            (Py.Returned (mk_Alert "User not found." "danger" true, no_update), db)
        | Some u =>
            (Py.isin_opt new_role ["admin"; "researcher"; "patient"] = false ->
             admin_actions cu "btn-admin-setrole" selected data new_role db =
             (Py.Returned (mk_Alert "Invalid role." "warning" true, no_update), db))
            /\ (forall r,
                  new_role = Some r -> r ∈ ["admin"; "researcher"; "patient"] ->
                  exists alert rows,
                    admin_actions cu "btn-admin-setrole" selected data new_role db =
                    (Py.Returned (alert, Value rows),
                     update_user (AdminRow.ID row) (set_role r) db)
                    /\ color alert = "success"
                    /\ query_get User.id
                         (users (update_user (AdminRow.ID row) (set_role r) db))
                         (AdminRow.ID row) = Some (set_role r u)
                    /\ User.role (set_role r u) = r)
        end).
Proof.
  split; [apply set_role_not_admin|].
  intros a i rest row Hadmin Hrow.
  destruct (query_get User.id (users db) (AdminRow.ID row)) as [u|] eqn:Hget.
  - split.
    + intros Hbad. by apply (set_role_invalid _ _ _ _ _ a i rest row Hadmin Hrow u).
    + intros r Hr Hok. eexists _, _. split; [|split; [|split]].
      * by apply (set_role_updates _ _ _ _ _ a i rest row Hadmin Hrow u r).
      * reflexivity.
      * by apply query_get_update_user.
      * reflexivity.
  - by apply (set_role_not_found _ _ _ _ _ a i rest row Hadmin Hrow).
Qed.

Lemma set_role_outcomes_witness :
  admin_actions (SessionUser true Sample.researcher) "btn-admin-setrole" [3%nat]
    (admin_row <$> users Sample.db) (Some "admin") Sample.db =
    (Py.Returned (mk_Alert "Not authorized." "danger" true, no_update), Sample.db)
  /\ admin_actions (SessionUser true Sample.admin) "btn-admin-setrole" [3%nat]
       (admin_row <$> users Sample.db) (Some "doctor") Sample.db =
     (Py.Returned (mk_Alert "Invalid role." "warning" true, no_update), Sample.db)
  /\ exists alert rows,
       admin_actions (SessionUser true Sample.admin) "btn-admin-setrole" [3%nat]
         (admin_row <$> users Sample.db) (Some "researcher") Sample.db =
       (Py.Returned (alert, Value rows), update_user 4 (set_role "researcher") Sample.db)
       /\ color alert = "success"
       /\ query_get User.id (users (update_user 4 (set_role "researcher") Sample.db)) 4 =
          Some (set_role "researcher" Sample.patient)
       /\ User.role (set_role "researcher" Sample.patient) = "researcher".
Proof.
  split; [|split].
  - apply (set_role_outcomes (SessionUser true Sample.researcher)).
    intros a [= <-]. discriminate.
  - pose proof (proj2 (set_role_outcomes (SessionUser true Sample.admin) [3%nat]
                         (admin_row <$> users Sample.db) (Some "doctor") Sample.db)
                  Sample.admin 3%nat [] (admin_row Sample.patient)
                  (conj eq_refl eq_refl) (conj eq_refl eq_refl)) as H.
    exact (proj1 H eq_refl).
  - pose proof (proj2 (set_role_outcomes (SessionUser true Sample.admin) [3%nat]
                         (admin_row <$> users Sample.db) (Some "researcher") Sample.db)
                  Sample.admin 3%nat [] (admin_row Sample.patient)
                  (conj eq_refl eq_refl) (conj eq_refl eq_refl)) as H.
    apply (proj2 H "researcher" eq_refl). by apply isin_true.
Defined.

(** ** The active flag *)

Section Deactivated.
Context (uid : Z).






End Deactivated.



(** * Further properties of the code *)

(** ** Accounts: registration, login, deactivation, bootstrap *)


Lemma user_by_email_None (e : string) (table : list User.t) :
  user_by_email e table = None <-> e ∉ (User.email <$> table).
Proof.
  unfold user_by_email. induction table as [|v l IH]; cbn [List.find fmap list_fmap].
  - split; [intros _; apply not_elem_of_nil|done].
  - rewrite not_elem_of_cons. case_bool_decide as Hv.
    + split; [discriminate|]. intros [Hne _]. by destruct Hne.
    + rewrite IH. split; [intros H; split; [congruence|done]|by intros [_ H]].
Qed.

Lemma user_by_email_app (e : string) (l1 l2 : list User.t) :
  user_by_email e (l1 ++ l2) =
  match user_by_email e l1 with
  | Some u => Some u
  | None => user_by_email e l2
  end.
Proof.
  unfold user_by_email. induction l1 as [|v l IH]; [reflexivity|].
  cbn [app List.find]. by destruct (bool_decide _).
Qed.

Lemma next_id_fresh {A : Type} (pk : A -> Z) (table : list A) :
  next_id pk table ∉ (pk <$> table).
Proof.
  intros Hin. apply list_elem_of_fmap in Hin as (r & Hr & Hin).
  apply (next_id_above pk) in Hin. lia.
Qed.

Section Register.
Context (generate_password_hash : string -> string) (now : datetime)
        (name affil email password role : option string) (consent : bool) (db : DB).

Lemma do_register_registrable :
  registrable name email password consent db ->
  exists n e p,
    Py.nonempty name = Some n /\ Py.nonempty email = Some e
    /\ Py.nonempty password = Some p
    /\ do_register generate_password_hash now name affil email password role consent db =
       (((mk_Alert "Account created. Welcome!" "success" true, Value "/"),
         Some {| User.id := next_id User.id (users db);
                 User.email := Py.lower (Py.strip e);
                 User.name := Py.strip n;
                 User.affiliation := Py.strip_or_none affil;
                 User.role := coerced_role role;
                 User.password_hash := generate_password_hash p;
                 User.created_at := now;
                 User.is_active := true |}),
        add_user {| User.id := next_id User.id (users db);
                    User.email := Py.lower (Py.strip e);
                    User.name := Py.strip n;
                    User.affiliation := Py.strip_or_none affil;
                    User.role := coerced_role role;
                    User.password_hash := generate_password_hash p;
                    User.created_at := now;
                    User.is_active := true |} db).
Proof.
  intros (-> & Hn & e & p & He & Hp & Hat & Hlen & Hfree).
  apply truthy_nonempty in Hn as [n Hn]. exists n, e, p. repeat split; try done.
  unfold do_register. rewrite Hn, He, Hp, Hat, Hfree. cbn [negb].
  by rewrite (proj2 (Nat.ltb_ge _ _) Hlen).
Qed.


End Register.





(** X3: an account just registered can log in: with a hash function whose
    hashes verify their own password, logging in with the e-mail and the
    password that were registered signs in the very user registration
    created. *)
Theorem register_then_login (generate_password_hash : string -> string)
    (check_password_hash : string -> string -> bool)
    (now : datetime) (name affil email password role : option string) (p : string)
    (db : DB) :
  registrable name email password true db ->
  Py.nonempty password = Some p ->
  check_password_hash (generate_password_hash p) p = true ->
  exists u,
    (do_register generate_password_hash now name affil email password role true db).1.2
      = Some u
    /\ do_login check_password_hash email password
         (do_register generate_password_hash now name affil email password role true db).2 =
       ((mk_Alert "Logged in successfully." "success" true, Value "/"), Some u).
Proof.
  intros Hok Hp Hcheck.
  destruct (do_register_registrable generate_password_hash now name affil email password
              role true db Hok) as (n & e & p0 & Hn & He & Hp0 & ->).
  rewrite Hp in Hp0. simplify_eq. eexists. split; [reflexivity|].
  destruct Hok as (_ & _ & e' & p' & He' & _ & _ & _ & Hfree).
  rewrite He in He'. simplify_eq.
  unfold do_login. rewrite He, Hp. cbn [snd add_user users].
  rewrite user_by_email_app, Hfree. cbn [user_by_email List.find User.email].
  rewrite bool_decide_eq_true_2 by done.
  cbn [User.password_hash User.is_active]. by rewrite Hcheck.
Qed.

Lemma register_then_login_witness :
  exists u,
    (do_register Sample.generate_password_hash Sample.t1 (Some "N. Diaz") None
       (Some "n@x.org") (Some "12345678") (Some "patient") true Sample.db).1.2 = Some u
    /\ do_login Sample.check_password_hash (Some "n@x.org") (Some "12345678")
         (do_register Sample.generate_password_hash Sample.t1 (Some "N. Diaz") None
            (Some "n@x.org") (Some "12345678") (Some "patient") true Sample.db).2 =
       ((mk_Alert "Logged in successfully." "success" true, Value "/"), Some u).
Proof.
  apply (register_then_login Sample.generate_password_hash Sample.check_password_hash
           Sample.t1 (Some "N. Diaz") None (Some "n@x.org") (Some "12345678")
           (Some "patient") "12345678" Sample.db).
  - split; [reflexivity|]. split; [reflexivity|].
    exists "n@x.org", "12345678". repeat split. cbn. lia.
  - reflexivity.
  - reflexivity.
Defined.



Lemma query_get_fmap {A : Type} (pk : A -> Z) (h : A -> A) (table : list A) (i : Z) :
  (forall v, pk (h v) = pk v) ->
  query_get pk (h <$> table) i = h <$> query_get pk table i.
Proof.
  intros Hpk. unfold query_get. induction table as [|v l IH]; [reflexivity|].
  cbn [fmap list_fmap List.find]. rewrite Hpk. by destruct (bool_decide (pk v = i)).
Qed.

Lemma user_by_email_fmap (h : User.t -> User.t) (table : list User.t) (e : string) :
  (forall v, User.email (h v) = User.email v) ->
  user_by_email e (h <$> table) = h <$> user_by_email e table.
Proof.
  intros Hmail. unfold user_by_email. induction table as [|v l IH]; [reflexivity|].
  cbn [fmap list_fmap List.find]. rewrite Hmail.
  by destruct (bool_decide (User.email v = e)).
Qed.

(** What [admin_actions] can do to the database: nothing, or set the role or
    clear the active flag of the one row the selected id names. *)
Lemma admin_actions_shape (cu : CurrentUser) (trig : string) (selected : list nat)
    (data : list AdminRow.t) (new_role : option string) (db : DB) :
  (admin_actions cu trig selected data new_role db).2 = db
  \/ exists a u uid,
       authenticated cu = Some a /\ User.role a = "admin"
       /\ query_get User.id (users db) uid = Some u
       /\ ((exists r, r ∈ ["admin"; "researcher"; "patient"]
                      /\ (admin_actions cu trig selected data new_role db).2 =
                         update_user uid (set_role r) db)
           \/ (User.id u <> User.id a
               /\ (admin_actions cu trig selected data new_role db).2 =
                  update_user uid (set_is_active false) db)).
Proof.
  unfold admin_actions.
  destruct (authenticated cu) as [a|] eqn:Hcu; [|by left].
  case_bool_decide as Hadm; cbn [negb]; [|by left].
  destruct selected as [|i rest]; [by left|].
  destruct (data !! i) as [row|]; [|by left].
  destruct (query_get _ _ _) as [u|] eqn:Hget; [|by left].
  case_bool_decide as Htrig.
  - destruct (Py.isin_opt new_role _) eqn:Hok; cbn [negb]; [|by left].
    destruct new_role as [r|]; [|discriminate]. cbn in Hok. apply isin_true in Hok.
    right. exists a, u, (AdminRow.ID row). repeat split; try done. left. by exists r.
  - case_bool_decide as Hself; [by left|].
    right. exists a, u, (AdminRow.ID row). repeat split; try done. by right.
Qed.

(** X5: deactivation by an admin: the admin's own account is refused and
    nothing changes; any other account found gets its flag cleared, after
    which a login with its e-mail and the right password is turned away as
    deactivated. *)
Theorem deactivation_locks_out (cu : CurrentUser) (a u : User.t) (trig : string)
    (i : nat) (rest : list nat) (row : AdminRow.t) (data : list AdminRow.t)
    (new_role : option string) (db : DB) :
  authenticated cu = Some a ->
  User.role a = "admin" ->
  trig <> "btn-admin-setrole" ->
  data !! i = Some row ->
  query_get User.id (users db) (AdminRow.ID row) = Some u ->
  (User.id u = User.id a ->
   admin_actions cu trig (i :: rest) data new_role db =
   (Py.Returned (mk_Alert "You can’t deactivate your own account." "warning" true,
                 no_update), db))
  /\ (User.id u <> User.id a ->
      (exists out,
          admin_actions cu trig (i :: rest) data new_role db =
          (Py.Returned out, deactivated (AdminRow.ID row) db))
      /\ query_get User.id (users (deactivated (AdminRow.ID row) db)) (AdminRow.ID row) =
         Some (set_is_active false u)
      /\ forall check_password_hash email password e p,
           Py.nonempty email = Some e -> Py.nonempty password = Some p ->
           user_by_email (Py.lower (Py.strip e)) (users db) = Some u ->
           check_password_hash (User.password_hash u) p = true ->
           do_login check_password_hash email password (deactivated (AdminRow.ID row) db) =
           ((mk_Alert "Account is deactivated. Contact the administrator." "danger" true,
             no_update), None)).
Proof.
  intros Hcu Hadm Htrig Hrow Hget. split.
  - intros Hself. unfold admin_actions. rewrite Hcu, Hadm, Hrow, Hget.
    rewrite (bool_decide_eq_true_2 ("admin" = "admin")) by done. cbn beta iota zeta.
    rewrite (bool_decide_eq_false_2 (trig = _)) by done.
    by rewrite (bool_decide_eq_true_2 (User.id u = User.id a)).
  - intros Hother. split; [|split].
    + unfold admin_actions. rewrite Hcu, Hadm, Hrow, Hget.
      rewrite (bool_decide_eq_true_2 ("admin" = "admin")) by done. cbn beta iota zeta.
      rewrite (bool_decide_eq_false_2 (trig = _)) by done.
      rewrite (bool_decide_eq_false_2 (User.id u = User.id a)) by done. by eexists.
    + by apply query_get_update_user.
    + intros check email password e p He Hp Hmail Hcheck.
      unfold do_login, deactivated, update_user. cbn [users]. rewrite He, Hp.
      rewrite user_by_email_fmap, Hmail by (intros v; cbn beta; by destruct (bool_decide _)).
      cbn [fmap option_fmap option_map].
      apply query_get_Some in Hget as [_ Hid]. rewrite bool_decide_eq_true_2 by done.
      cbn [set_is_active User.password_hash User.is_active]. by rewrite Hcheck.
Qed.

Lemma deactivation_locks_out_witness :
  admin_actions (SessionUser true Sample.admin) "btn-admin-deactivate" [0%nat]
    (admin_row <$> users Sample.db) None Sample.db =
  (Py.Returned (mk_Alert "You can’t deactivate your own account." "warning" true,
                no_update), Sample.db)
  /\ query_get User.id (users (deactivated 4 Sample.db)) 4 =
     Some (set_is_active false Sample.patient)
  /\ do_login (fun h p => String.eqb h "hash") (Some "p1@x.org") (Some "anything")
       (deactivated 4 Sample.db) =
     ((mk_Alert "Account is deactivated. Contact the administrator." "danger" true,
       no_update), None).
Proof.
  split.
  - apply (proj1 (deactivation_locks_out (SessionUser true Sample.admin) Sample.admin
                    Sample.admin "btn-admin-deactivate" 0 [] (admin_row Sample.admin)
                    (admin_row <$> users Sample.db) None Sample.db
                    eq_refl eq_refl ltac:(discriminate) eq_refl eq_refl) eq_refl).
  - destruct (proj2 (deactivation_locks_out (SessionUser true Sample.admin) Sample.admin
                       Sample.patient "btn-admin-deactivate" 3 [] (admin_row Sample.patient)
                       (admin_row <$> users Sample.db) None Sample.db
                       eq_refl eq_refl ltac:(discriminate) eq_refl eq_refl)
                ltac:(discriminate)) as (_ & Hget & Hlogin).
    split; [exact Hget|].
    exact (Hlogin (fun h p => String.eqb h "hash") (Some "p1@x.org") (Some "anything")
             "p1@x.org" "anything" eq_refl eq_refl eq_refl eq_refl).
Defined.

Lemma admin_actions_accounts (cu : CurrentUser) (trig : string)
    (selected : list nat) (data : list AdminRow.t) (new_role : option string) (db : DB) :
  User.id <$> users (admin_actions cu trig selected data new_role db).2 = User.id <$> users db
  /\ User.email <$> users (admin_actions cu trig selected data new_role db).2 =
     User.email <$> users db
  /\ User.password_hash <$> users (admin_actions cu trig selected data new_role db).2 =
     User.password_hash <$> users db
  /\ papers (admin_actions cu trig selected data new_role db).2 = papers db
  /\ datasets (admin_actions cu trig selected data new_role db).2 = datasets db
  /\ news_posts (admin_actions cu trig selected data new_role db).2 = news_posts db
  /\ chat_messages (admin_actions cu trig selected data new_role db).2 = chat_messages db
  /\ (forall a,
        authenticated cu = Some a ->
        User.is_active <$>
          query_get User.id (users (admin_actions cu trig selected data new_role db).2)
            (User.id a) =
        User.is_active <$> query_get User.id (users db) (User.id a)).
Proof.
  destruct (admin_actions_shape cu trig selected data new_role db)
    as [->|(a & u & uid & Hcu & Hadm & Hget & [(r & Hr & ->)|(Hother & ->)])].
  - done.
  - unfold update_user. cbn [users papers datasets news_posts chat_messages].
    rewrite <- !list_fmap_compose.
    repeat split; try (apply list_fmap_ext; intros _ v _; cbn; by destruct (bool_decide _)).
    intros a' _. rewrite query_get_fmap by (intros v; cbn beta; by destruct (bool_decide _)).
    destruct (query_get User.id (users db) (User.id a')) as [v|]; [|done].
    cbn. by destruct (bool_decide _).
  - unfold update_user. cbn [users papers datasets news_posts chat_messages].
    rewrite <- !list_fmap_compose.
    repeat split; try (apply list_fmap_ext; intros _ v _; cbn; by destruct (bool_decide _)).
    intros a' Ha'. rewrite Hcu in Ha'. simplify_eq.
    rewrite query_get_fmap by (intros v; cbn beta; by destruct (bool_decide _)).
    destruct (query_get User.id (users db) (User.id a')) as [v|] eqn:Hv; [|done].
    apply query_get_Some in Hv as [_ Hv]. apply query_get_Some in Hget as [_ Hu].
    cbn. rewrite bool_decide_eq_false_2; [done|]. congruence.
Qed.

(** X6: whatever it is given, [admin_actions] creates and deletes no
    account, changes no id, e-mail or password hash, touches no content
    table, and leaves the active flag of the acting user as it was. *)
Theorem admin_actions_keeps_accounts (cu : CurrentUser) (trig : string)
    (selected : list nat) (data : list AdminRow.t) (new_role : option string) (db : DB) :
  User.id <$> users (admin_actions cu trig selected data new_role db).2 = User.id <$> users db
  /\ User.email <$> users (admin_actions cu trig selected data new_role db).2 =
     User.email <$> users db
  /\ User.password_hash <$> users (admin_actions cu trig selected data new_role db).2 =
     User.password_hash <$> users db
  /\ papers (admin_actions cu trig selected data new_role db).2 = papers db
  /\ datasets (admin_actions cu trig selected data new_role db).2 = datasets db
  /\ news_posts (admin_actions cu trig selected data new_role db).2 = news_posts db
  /\ chat_messages (admin_actions cu trig selected data new_role db).2 = chat_messages db
  /\ (forall a,
        authenticated cu = Some a ->
        User.is_active <$>
          query_get User.id (users (admin_actions cu trig selected data new_role db).2)
            (User.id a) =
        User.is_active <$> query_get User.id (users db) (User.id a)).
Proof. apply admin_actions_accounts. Qed.


Lemma do_register_db (generate_password_hash : string -> string) (now : datetime)
    (name affil email password role : option string) (consent : bool) (db : DB) :
  (do_register generate_password_hash now name affil email password role consent db).2 = db
  \/ exists u,
       (do_register generate_password_hash now name affil email password role consent db).2
         = add_user u db
       /\ User.id u = next_id User.id (users db)
       /\ user_by_email (User.email u) (users db) = None.
Proof.
  unfold do_register.
  destruct consent; cbn [negb]; [|by left].
  destruct (Py.nonempty name); [|by left].
  destruct (Py.nonempty email); [|by left].
  destruct (Py.nonempty password); [|by left].
  destruct (negb _); [by left|].
  destruct (_ <? _)%nat; [by left|].
  destruct (user_by_email _ _) eqn:Hfree; [by left|].
  right. by eexists.
Qed.

(** X7: the schema's promise that ids and e-mails are unique in the user
    table is kept by every operation that writes the table: registration,
    the admin actions and the bootstrap. *)
Theorem users_stay_unique (generate_password_hash : string -> string)
    (now : datetime) (name affil email password role new_role : option string)
    (consent : bool) (cu : CurrentUser) (trig ADMIN_EMAIL ADMIN_PASSWORD : string)
    (selected : list nat) (data : list AdminRow.t) (db : DB) :
  users_unique db ->
  users_unique
    (do_register generate_password_hash now name affil email password role consent db).2
  /\ users_unique (admin_actions cu trig selected data new_role db).2
  /\ users_unique (bootstrap generate_password_hash ADMIN_EMAIL ADMIN_PASSWORD now db).
Proof.
  intros [Hids Hmails]. split; [|split].
  - destruct (do_register_db generate_password_hash now name affil email password
                role consent db) as [->|(u & -> & Hid & Hfree)]; [done|].
    unfold users_unique, add_user. cbn [users]. rewrite !fmap_app. cbn [fmap list_fmap].
    split; apply list.NoDup_app; (split; [done|]); (split; [|apply list.NoDup_singleton]);
      intros x Hx Hx'; apply list_elem_of_singleton in Hx'; subst x.
    + rewrite Hid in Hx. by apply next_id_fresh in Hx.
    + by apply user_by_email_None in Hfree.
  - unfold users_unique.
    destruct (admin_actions_accounts cu trig selected data new_role db)
      as (-> & -> & _). done.
  - unfold bootstrap. destruct (user_by_email _ _) eqn:Hfree; [done|].
    unfold users_unique, add_user. cbn [users]. rewrite !fmap_app. cbn [fmap list_fmap].
    split; apply list.NoDup_app; (split; [done|]); (split; [|apply list.NoDup_singleton]);
      intros x Hx Hx'; apply list_elem_of_singleton in Hx'; subst x.
    + by apply next_id_fresh in Hx.
    + by apply user_by_email_None in Hfree.
Qed.

Lemma users_stay_unique_witness :
  users_unique
    (do_register Sample.generate_password_hash Sample.t1 (Some "N. Diaz") None
       (Some "n@x.org") (Some "12345678") (Some "patient") true Sample.db).2
  /\ users_unique
       (admin_actions (SessionUser true Sample.admin) "btn-admin-setrole" [3%nat]
          (admin_row <$> users Sample.db) (Some "researcher") Sample.db).2
  /\ users_unique
       (bootstrap Sample.generate_password_hash "root@conatoc.net" "ChangeMeNow!"
          Sample.t1 Sample.db).
Proof.
  apply (users_stay_unique Sample.generate_password_hash Sample.t1 (Some "N. Diaz") None
           (Some "n@x.org") (Some "12345678") (Some "patient") (Some "researcher") true
           (SessionUser true Sample.admin) "btn-admin-setrole" "root@conatoc.net"
           "ChangeMeNow!" [3%nat] (admin_row <$> users Sample.db) Sample.db).
  split; compute_done.
Defined.

(** X8: the bootstrap is an upsert-if-absent keyed on the configured e-mail
    alone: run again it changes nothing; it leaves every existing row in
    place and adds at most one; afterwards an account with that e-mail
    exists; and when one existed already, whatever its role or active flag,
    the database is left exactly as it was. *)
Theorem bootstrap_idempotent (generate_password_hash : string -> string)
    (ADMIN_EMAIL ADMIN_PASSWORD : string) (now now' : datetime) (db : DB) :
  bootstrap generate_password_hash ADMIN_EMAIL ADMIN_PASSWORD now'
    (bootstrap generate_password_hash ADMIN_EMAIL ADMIN_PASSWORD now db) =
  bootstrap generate_password_hash ADMIN_EMAIL ADMIN_PASSWORD now db
  /\ (exists u,
        user_by_email ADMIN_EMAIL
          (users (bootstrap generate_password_hash ADMIN_EMAIL ADMIN_PASSWORD now db)) = Some u
        /\ (user_by_email ADMIN_EMAIL (users db) = None ->
            User.role u = "admin" /\ User.is_active u = true
            /\ users (bootstrap generate_password_hash ADMIN_EMAIL ADMIN_PASSWORD now db) =
               (users db ++ [u])%list))
  /\ (forall v,
        user_by_email ADMIN_EMAIL (users db) = Some v ->
        bootstrap generate_password_hash ADMIN_EMAIL ADMIN_PASSWORD now db = db).
Proof.
  assert (forall v, user_by_email ADMIN_EMAIL (users db) = Some v ->
                    bootstrap generate_password_hash ADMIN_EMAIL ADMIN_PASSWORD now db = db)
    as Hkeep.
  { intros v Hv. unfold bootstrap. by rewrite Hv. }
  assert (exists u,
             user_by_email ADMIN_EMAIL
               (users (bootstrap generate_password_hash ADMIN_EMAIL ADMIN_PASSWORD now db))
             = Some u
             /\ (user_by_email ADMIN_EMAIL (users db) = None ->
                 User.role u = "admin" /\ User.is_active u = true
                 /\ users (bootstrap generate_password_hash ADMIN_EMAIL ADMIN_PASSWORD now db)
                    = (users db ++ [u])%list)) as Hex.
  { unfold bootstrap. destruct (user_by_email ADMIN_EMAIL (users db)) as [v|] eqn:Hv.
    - exists v. split; [done|discriminate].
    - eexists. cbn [add_user users]. rewrite user_by_email_app, Hv.
      cbn [user_by_email List.find User.email]. rewrite bool_decide_eq_true_2 by done.
      split; [reflexivity|]. done. }
  split; [|split; [exact Hex|exact Hkeep]].
  destruct Hex as (u & Hu & _). unfold bootstrap at 1. by rewrite Hu.
Qed.

Lemma bootstrap_idempotent_witness :
  bootstrap Sample.generate_password_hash "p1@x.org" "ChangeMeNow!" Sample.t1 Sample.db
  = Sample.db.
Proof.
  exact (proj2 (proj2 (bootstrap_idempotent Sample.generate_password_hash "p1@x.org"
                         "ChangeMeNow!" Sample.t1 Sample.t2 Sample.db))
           Sample.patient eq_refl).
Defined.

(** ** Content: papers, datasets, downloads *)


Lemma on_paper_upload_decoded (contents header payload : string) (raw : list byte)
    (filename : option string) (st : Stores) :
  Py.split_comma contents = Some (header, payload) ->
  Base64.b64decode payload = Some raw ->
  on_paper_upload (Some contents) filename st =
  {| paper_upload_store := Some {| UploadStore.bytes_b64 := Base64.b64encode raw;
                                   UploadStore.filename := filename |};
     ds_upload_store := ds_upload_store st |}.
Proof.
  intros Hsplit Hdec. unfold on_paper_upload, cache_paper_upload.
  destruct contents as [|c contents]; [discriminate|].
  cbn [Py.nonempty]. by rewrite Hsplit, Hdec.
Qed.

(** X9: a paper published by any member with a staged file of at least one
    byte can be downloaded by any member, whatever the two roles: the answer
    is a PDF attachment holding exactly the staged bytes, under the staged
    file name (or [paper_<id>.pdf] without one).  A visitor asking for the
    same paper is sent to the login page. *)
Theorem paper_download_roundtrip (publisher reader : User.t) (now : datetime)
    (title link tags summary filename : option string) (t contents header payload : string)
    (raw : list byte) (st : Stores) (db : DB) :
  Py.nonempty title = Some t ->
  Py.split_comma contents = Some (header, payload) ->
  Base64.b64decode payload = Some raw ->
  raw <> [] ->
  exists rows db',
    on_paper_publish (SessionUser true publisher) now title link tags summary
      (on_paper_upload (Some contents) filename st) db =
      (Py.Returned (published, rows), on_paper_upload (Some contents) filename st, db')
    /\ download_paper (SessionUser true reader) (next_id Paper.id (papers db)) db' =
       SendFile raw
         (default ("paper_" +:+ Py.str_int (next_id Paper.id (papers db)) +:+ ".pdf")
                  (Py.nonempty filename))
         "application/pdf"
    /\ download_paper AnonymousUser (next_id Paper.id (papers db)) db' = Redirect "/login".
Proof.
  intros Ht Hsplit Hdec Hne.
  rewrite (on_paper_upload_decoded _ _ _ _ _ _ Hsplit Hdec).
  unfold on_paper_publish. cbn [paper_upload_store].
  rewrite (publish_paper_published _ _ _ _ _ _ _ _ publisher t filename (Some raw));
    [|done|done|by apply staged_file_encoded].
  eexists _, _. split; [reflexivity|]. split; [|reflexivity].
  unfold download_paper. cbn [authenticated add_paper papers].
  rewrite query_get_inserted by reflexivity.
  cbn [Paper.file_bytes Paper.file_name].
  destruct raw as [|x raw]; [done|]. reflexivity.
Qed.

Lemma paper_download_roundtrip_witness :
  exists rows db',
    on_paper_publish (SessionUser true Sample.patient) Sample.t1 (Some "Lipidomics notes")
      None None None
      (on_paper_upload (Some Sample.contents) None (mk_Stores None None)) Sample.db =
      (Py.Returned (published, rows),
       on_paper_upload (Some Sample.contents) None (mk_Stores None None), db')
    /\ download_paper (SessionUser true Sample.doctor) 1 db' =
       SendFile Sample.raw "paper_1.pdf" "application/pdf"
    /\ download_paper AnonymousUser 1 db' = Redirect "/login".
Proof.
  apply (paper_download_roundtrip Sample.patient Sample.doctor Sample.t1
           (Some "Lipidomics notes") None None None None "Lipidomics notes"
           Sample.contents "data:application/octet-stream;base64" "AQID" Sample.raw
           (mk_Stores None None) Sample.db); try reflexivity.
  discriminate.
Defined.

(** X10: [download_dataset] sends a file exactly when the requester is
    authenticated, the id names a dataset, the dataset has at least one
    stored byte, and the dataset is not researchers-only or the requester is
    an admin or a researcher; what it sends is the stored bytes, under the
    stored name or [dataset_<id>.bin]. *)
Theorem download_dataset_sends_iff (cu : CurrentUser) (dataset_id : Z) (db : DB)
    (data : list byte) (fname mimetype : string) :
  download_dataset cu dataset_id db = SendFile data fname mimetype
  <-> exists u ds,
        authenticated cu = Some u
        /\ query_get Dataset.id (datasets db) dataset_id = Some ds
        /\ Py.nonempty_bytes (Dataset.file_bytes ds) = Some data
        /\ (Dataset.visibility ds <> "researchers"
            \/ User.role u ∈ ["admin"; "researcher"])
        /\ fname = default ("dataset_" +:+ Py.str_int dataset_id +:+ ".bin")
                           (Py.nonempty (Dataset.file_name ds))
        /\ mimetype = "application/octet-stream".
Proof.
  unfold download_dataset. split.
  - destruct (authenticated cu) as [u|]; [|discriminate].
    destruct (query_get _ _ _) as [ds|]; [|discriminate].
    destruct (Py.nonempty_bytes _) as [bytes|] eqn:Hbytes; [|discriminate].
    destruct (bool_decide _ && _) eqn:Hgate; [discriminate|].
    intros [= <- <- <-]. exists u, ds.
    split; [done|]. split; [done|]. split; [done|]. split; [|done].
    apply andb_false_iff in Hgate as [Hvis|Hrole].
    + left. by apply bool_decide_eq_false in Hvis.
    + right. apply negb_false_iff in Hrole. by apply isin_true.
  - intros (u & ds & -> & -> & -> & Hgate & -> & ->).
    destruct Hgate as [Hvis|Hrole].
    + by rewrite bool_decide_eq_false_2.
    + apply isin_true in Hrole. rewrite Hrole. by rewrite andb_false_r.
Qed.

(** X11: the visibility column of a dataset that [publish_dataset] stores
    is researchers exactly when that value was requested, and members for
    any other request (another string, or none); and a researchers-only
    dataset is stored only for an uploader who is an admin or a researcher at
    that moment. *)
Theorem stored_visibility (cu : CurrentUser) (now : datetime)
    (title desc link tags vis : option string) (upload_store : option UploadStore.t)
    (db db' : DB) (rows : Update (list DatasetRow.t)) :
  publish_dataset cu now title desc link tags vis upload_store db =
    (Py.Returned (published, rows), db') ->
  exists u ds,
    authenticated cu = Some u
    /\ db' = add_dataset ds db
    /\ Dataset.uploaded_by ds = User.id u
    /\ Dataset.visibility ds = (if bool_decide (vis = Some "researchers")
                                then "researchers" else "members")
    /\ (Dataset.visibility ds = "researchers" -> User.role u ∈ ["admin"; "researcher"]).
Proof.
  unfold publish_dataset, published. intros H.
  destruct (authenticated cu) as [u|]; [|discriminate].
  destruct (Py.nonempty title) as [t|]; [|discriminate].
  cbn zeta in H. destruct (bool_decide _ && _) eqn:Hgate; [discriminate|].
  destruct (staged_file upload_store) as [[fn fb]|e]; [|discriminate].
  simplify_eq. eexists u, _. split; [done|]. split; [reflexivity|].
  cbn [Dataset.uploaded_by Dataset.visibility]. split; [done|].
  assert ((if Py.isin_opt vis ["members"; "researchers"]
           then default "members" vis else "members") =
          (if bool_decide (vis = Some "researchers") then "researchers" else "members"))
    as Hvis.
  { destruct vis as [v|]; [|done]. cbn [Py.isin_opt default].
    destruct (Py.isin v _) eqn:Hin.
    - apply isin_true in Hin. set_unfold. destruct Hin as [->|[->|[]]]; done.
    - apply isin_false in Hin. rewrite bool_decide_eq_false_2; [done|].
      intros [= ->]. apply Hin. set_solver. }
  split; [exact Hvis|]. intros Hres. rewrite Hres in Hgate.
  rewrite bool_decide_eq_true_2 in Hgate by done. cbn in Hgate.
  apply negb_false_iff in Hgate. by apply isin_true.
Qed.

Lemma stored_visibility_witness :
  exists u ds,
    authenticated (SessionUser true Sample.patient) = Some u
    /\ (publish_dataset (SessionUser true Sample.patient) Sample.t1 (Some "Diet log") None
          None None (Some "public") None Sample.db).2 = add_dataset ds Sample.db
    /\ Dataset.uploaded_by ds = User.id u
    /\ Dataset.visibility ds = "members".
Proof.
  destruct (stored_visibility (SessionUser true Sample.patient) Sample.t1 (Some "Diet log")
              None None None (Some "public") None Sample.db _ _ eq_refl)
    as (u & ds & Hu & Hdb & Hby & Hvis & _).
  exists u, ds. repeat split; assumption.
Defined.

(** X12: the four operations that create content are append-only: each
    leaves its own table as it was or with one more row under the next id,
    and leaves the user table and the three other content tables exactly as
    they were. *)
Theorem content_operations_append_only (cu : CurrentUser) (now : datetime)
    (title desc link tags summary vis body channel text : option string)
    (upload_store : option UploadStore.t) (db : DB) :
  (appended Paper.id (papers db)
     (papers (publish_paper cu now title link tags summary upload_store db).2)
   /\ users (publish_paper cu now title link tags summary upload_store db).2 = users db
   /\ datasets (publish_paper cu now title link tags summary upload_store db).2 = datasets db
   /\ news_posts (publish_paper cu now title link tags summary upload_store db).2
      = news_posts db
   /\ chat_messages (publish_paper cu now title link tags summary upload_store db).2
      = chat_messages db)
  /\ (appended Dataset.id (datasets db)
        (datasets (publish_dataset cu now title desc link tags vis upload_store db).2)
      /\ users (publish_dataset cu now title desc link tags vis upload_store db).2 = users db
      /\ papers (publish_dataset cu now title desc link tags vis upload_store db).2
         = papers db
      /\ news_posts (publish_dataset cu now title desc link tags vis upload_store db).2
         = news_posts db
      /\ chat_messages (publish_dataset cu now title desc link tags vis upload_store db).2
         = chat_messages db)
  /\ (appended NewsPost.id (news_posts db) (news_posts (publish_news cu now title link body db).2)
      /\ users (publish_news cu now title link body db).2 = users db
      /\ papers (publish_news cu now title link body db).2 = papers db
      /\ datasets (publish_news cu now title link body db).2 = datasets db
      /\ chat_messages (publish_news cu now title link body db).2 = chat_messages db)
  /\ (appended ChatMessage.id (chat_messages db)
        (chat_messages (send_chat cu now channel text db).2)
      /\ users (send_chat cu now channel text db).2 = users db
      /\ papers (send_chat cu now channel text db).2 = papers db
      /\ datasets (send_chat cu now channel text db).2 = datasets db
      /\ news_posts (send_chat cu now channel text db).2 = news_posts db).
Proof.
  split; [|split; [|split]].
  - destruct (publish_paper_outcome cu now title link tags summary upload_store db)
      as [(al & -> & _)|[(e & ->)|(p & Hp)]]; try (repeat split; by left).
    pose proof Hp as Hp'. apply publish_paper_success in Hp'
      as (u & t & fn & fb & p' & Hcu & Ht & Hfile & Hdb & _).
    rewrite (publish_paper_published _ _ _ _ _ _ _ _ u t fn fb) by done.
    repeat split. right. by eexists.
  - unfold publish_dataset.
    destruct (authenticated cu); [|repeat split; by left].
    destruct (Py.nonempty title); [|repeat split; by left].
    destruct (_ && _); [repeat split; by left|].
    destruct (staged_file upload_store) as [[fn fb]|e]; [|repeat split; by left].
    repeat split. right. by eexists.
  - unfold publish_news.
    destruct (authenticated cu); [|repeat split; by left].
    destruct (Py.nonempty title); [|repeat split; by left].
    destruct (Py.nonempty body); [|repeat split; by left].
    repeat split. right. by eexists.
  - unfold send_chat.
    destruct (authenticated cu); [|repeat split; by left].
    destruct (negb _); [repeat split; by left|].
    destruct (Py.nonempty (Py.strip <$> Py.nonempty text)); [|repeat split; by left].
    repeat split. right. by eexists.
Qed.



(** ** Feeds: chat and news *)


Lemma elem_of_rev_take {A : Type} (x : A) (n : nat) (l : list A) :
  x ∈ rev (take n l) -> x ∈ l.
Proof.
  intros H. apply list_elem_of_In in H. apply in_rev in H.
  apply list_elem_of_In, elem_of_take in H as (i & H & _).
  by apply list_elem_of_lookup_2 in H.
Qed.



(** X15: a chat feed shows one channel only, to those who may read it: when
    [refresh_chat] returns messages, the current user is authenticated and
    passes [can_access_channel] for the channel, there are at most sixty
    entries, and each entry renders a stored message of that very channel. *)
Theorem chat_feed_shows_own_channel (cu : CurrentUser) (channel : option string)
    (db : DB) (items : list ChatItem) (alert : Alert) :
  refresh_chat cu channel db = (FeedMessages items, alert) ->
  exists u,
    authenticated cu = Some u
    /\ can_access_channel u channel = true
    /\ (length items <= 60)%nat
    /\ forall item,
         item ∈ items ->
         exists m, m ∈ chat_messages db
                   /\ Some (ChatMessage.channel m) = channel
                   /\ item = chat_item (users_dict (users db)) m.
Proof.
  unfold refresh_chat. intros H.
  destruct (authenticated cu) as [u|]; [|discriminate].
  destruct (can_access_channel u channel) eqn:Hacc; cbn [negb] in H; [|discriminate].
  simplify_eq. exists u. split; [done|]. split; [done|]. split.
  - rewrite length_fmap, length_rev, length_take. lia.
  - intros item Hitem. apply list_elem_of_fmap in Hitem as (m & -> & Hm).
    exists m. split; [|split; [|done]].
    + apply elem_of_rev_take, order_by_desc_elem, list_elem_of_In, filter_In in Hm
        as [Hm _]. by apply list_elem_of_In.
    + apply elem_of_rev_take, order_by_desc_elem, list_elem_of_In, filter_In in Hm
        as [_ Hm]. by apply bool_decide_eq_true in Hm.
Qed.

Lemma chat_feed_shows_own_channel_witness :
  exists u,
    authenticated (SessionUser true Sample.doctor) = Some u
    /\ can_access_channel u (Some "research") = true
    /\ exists m,
         m ∈ chat_messages
               (send_chat (SessionUser true Sample.doctor) Sample.t1 (Some "research")
                  (Some " hello ") Sample.db).2
         /\ Some (ChatMessage.channel m) = Some "research"
         /\ {| author := "D. Osei"; sent_at := "10:31"; text := "hello" |} =
            chat_item (users_dict (users Sample.db)) m.
Proof.
  destruct (chat_feed_shows_own_channel (SessionUser true Sample.doctor) (Some "research")
              (send_chat (SessionUser true Sample.doctor) Sample.t1 (Some "research")
                 (Some " hello ") Sample.db).2
              [{| author := "D. Osei"; sent_at := "10:31"; text := "hello" |}]
              (mk_Alert "" "success" false) eq_refl)
    as (u & Hu & Hacc & _ & Hitems).
  exists u. split; [exact Hu|]. split; [exact Hacc|].
  apply Hitems. apply list_elem_of_here.
Defined.



(** ** Pages, navigation and the router *)

(** X17: a visitor is handed no member data and changes nothing: every
    route but the home and login pages renders a members-only card (or "page
    not found"), the directory searches return no row, the feeds come back
    blank, both downloads redirect to the login page, and the four content
    operations and the admin actions leave the database as it was. *)
Theorem visitor_gets_nothing (cu : CurrentUser) (now : datetime)
    (pathname q title desc link tags summary vis body channel text new_role : option string)
    (upload_store : option UploadStore.t) (trig : string) (selected : list nat)
    (data : list AdminRow.t) (i : Z) (db : DB) :
  authenticated cu = None ->
  (pathname ∉ [None; Some "/"; Some ""; Some "/login"] ->
   render_page cu pathname db ∈
     [PapersView MembersOnly; DataView DataAuthGuard; ResearchersView MembersOnly;
      DoctorsView MembersOnly; PatientsView PatientsAuthGuard; CommunityView MembersOnly;
      AdminView MembersOnly; PageNotFound])
  /\ filter_researchers cu q db = []
  /\ filter_doctors cu q db = []
  /\ filter_patients cu q db = []
  /\ refresh_chat cu channel db = (FeedBlank, mk_Alert "" "warning" false)
  /\ refresh_news cu db = NewsBlank
  /\ download_paper cu i db = Redirect "/login"
  /\ download_dataset cu i db = Redirect "/login"
  /\ (publish_paper cu now title link tags summary upload_store db).2 = db
  /\ (publish_dataset cu now title desc link tags vis upload_store db).2 = db
  /\ (publish_news cu now title link body db).2 = db
  /\ (send_chat cu now channel text db).2 = db
  /\ (admin_actions cu trig selected data new_role db).2 = db.
Proof.
  intros Hcu. split.
  - intros Hpath. unfold render_page, page_papers, page_data, page_researchers,
      page_doctors, page_patients, page_community, page_admin, auth_guard.
    rewrite Hcu. rewrite bool_decide_eq_false_2 by set_solver.
    rewrite (bool_decide_eq_false_2 (pathname = Some "/login")) by set_solver.
    repeat (case_bool_decide; [set_solver|]). set_solver.
  - unfold filter_researchers, filter_doctors, filter_patients, refresh_chat, refresh_news,
      download_paper, download_dataset, publish_paper, publish_dataset, publish_news,
      send_chat, admin_actions.
    rewrite Hcu. repeat split.
Qed.

Lemma visitor_gets_nothing_witness :
  render_page AnonymousUser (Some "/patients") Sample.db_restricted =
    PatientsView PatientsAuthGuard
  /\ download_dataset (SessionUser false Sample.admin) 1 Sample.db_restricted
     = Redirect "/login"
  /\ (admin_actions AnonymousUser "btn-admin-setrole" [0%nat] (admin_row <$> users Sample.db)
        (Some "admin") Sample.db).2 = Sample.db.
Proof.
  split; [reflexivity|]. split.
  - apply (visitor_gets_nothing (SessionUser false Sample.admin) Sample.t1
             None None None None None None None None None None None None None "" [] [] 1
             Sample.db_restricted eq_refl).
  - apply (visitor_gets_nothing AnonymousUser Sample.t1
             None None None None None None None None None None None (Some "admin") None
             "btn-admin-setrole" [0%nat] (admin_row <$> users Sample.db) 1 Sample.db eq_refl).
Defined.

Lemma elem_of_users_with_roles (rs : list string) (table : list User.t) (v : User.t) :
  v ∈ users_with_roles rs table <-> v ∈ table /\ User.role v ∈ rs.
Proof.
  unfold users_with_roles. rewrite order_by_desc_elem, list_elem_of_In, filter_In.
  split; intros [Hin Hr]; (split; [by apply list_elem_of_In|by apply isin_true]).
Qed.

Lemma elem_of_users_with_role (r : string) (table : list User.t) (v : User.t) :
  v ∈ users_with_role r table <-> v ∈ table /\ User.role v = r.
Proof.
  unfold users_with_role. rewrite order_by_desc_elem, list_elem_of_In, filter_In.
  split; intros [Hin Hr]; (split; [by apply list_elem_of_In|]).
  - by apply bool_decide_eq_true in Hr.
  - by apply bool_decide_eq_true.
Qed.

(** X19: the two staff directories show their roles and nobody else: for a
    member, the researchers page lists exactly the users whose role is
    researcher or admin and the doctors page exactly the doctors, so no row
    of either belongs to a patient; a search returns rows of the page only,
    and with no search text all of them. *)
Theorem directories_list_their_roles (cu : CurrentUser) (u : User.t)
    (q : option string) (db : DB) :
  authenticated cu = Some u ->
  (exists rows,
      page_researchers cu db = Content (Some rows)
      /\ filter_researchers cu None db = rows
      /\ (forall row, row ∈ filter_researchers cu q db -> row ∈ rows)
      /\ forall row,
           row ∈ rows <->
           exists v, v ∈ users db /\ User.role v ∈ ["researcher"; "admin"]
                     /\ row = directory_row v)
  /\ (exists rows,
      page_doctors cu db = Content (Some rows)
      /\ filter_doctors cu None db = rows
      /\ (forall row, row ∈ filter_doctors cu q db -> row ∈ rows)
      /\ forall row,
           row ∈ rows <->
           exists v, v ∈ users db /\ User.role v = "doctor" /\ row = directory_row v).
Proof.
  intros Hcu. split.
  - eexists. unfold page_researchers, filter_researchers. rewrite Hcu.
    split; [reflexivity|]. split; [reflexivity|]. split.
    + intros row. cbn zeta. destruct (negb _); [done|].
      rewrite !list_elem_of_In, filter_In. by intros [H _].
    + intros row. rewrite list_elem_of_fmap. split.
      * intros (v & -> & Hv). apply elem_of_users_with_roles in Hv as [Hv Hr]. by exists v.
      * intros (v & Hv & Hr & ->). exists v. split; [done|].
        by apply elem_of_users_with_roles.
  - eexists. unfold page_doctors, filter_doctors. rewrite Hcu.
    split; [reflexivity|]. split; [reflexivity|]. split.
    + intros row. cbn zeta. destruct (negb _); [done|].
      rewrite !list_elem_of_In, filter_In. by intros [H _].
    + intros row. rewrite list_elem_of_fmap. split.
      * intros (v & -> & Hv). apply elem_of_users_with_role in Hv as [Hv Hr]. by exists v.
      * intros (v & Hv & Hr & ->). exists v. split; [done|].
        by apply elem_of_users_with_role.
Qed.

Lemma directories_list_their_roles_witness :
  page_researchers (SessionUser true Sample.patient) Sample.db =
    Content (Some [directory_row Sample.admin; directory_row Sample.researcher])
  /\ page_doctors (SessionUser true Sample.patient) Sample.db =
     Content (Some [directory_row Sample.doctor]).
Proof.
  destruct (directories_list_their_roles (SessionUser true Sample.patient) Sample.patient
              None Sample.db eq_refl) as [(rows & -> & <- & _) (rows' & -> & <- & _)].
  split; vm_compute; reflexivity.
Defined.

(** X21: the channel selector of the community page offers exactly the
    channels the user may use: for every role string and every channel
    value, the value is among the options if and only if
    [can_access_channel] grants it; and the channel selected at first,
    general, is always among them. *)
Theorem channel_options_are_the_accessible (u : User.t) (ch : string) :
  (ch ∈ (snd <$> channel_opts u) <-> can_access_channel u (Some ch) = true)
  /\ page_community (SessionUser true u) = Content (Some (channel_opts u, "general"))
  /\ "general" ∈ (snd <$> channel_opts u).
Proof.
  split; [|split; [reflexivity|]].
  - unfold channel_opts, can_access_channel.
    destruct (Py.isin (User.role u) ["admin"; "researcher"; "doctor"]),
             (Py.isin (User.role u) ["admin"; "patient"]);
      cbn [app fmap list_fmap snd];
      repeat case_bool_decide; simplify_eq; split; try done; set_solver.
  - unfold channel_opts. cbn [app fmap list_fmap snd]. apply list_elem_of_here.
Qed.

Lemma isin_false_admin (r : string) : r <> "admin" -> Py.isin r ["admin"] = false.
Proof. intros H. apply isin_false. set_solver. Qed.

(** X22: the Admin link and the admin console go together: the navigation
    bar holds the link to [/admin] exactly when [page_admin] renders the
    user table, which is exactly when the current user is authenticated with
    role admin; any other member gets the restricted card and a visitor the
    members-only card. *)
Theorem admin_link_iff_console (cu : CurrentUser) (db : DB) :
  (("Admin", "/admin") ∈ top_navbar_items cu <->
   exists u, authenticated cu = Some u /\ User.role u = "admin")
  /\ ((exists rows, page_admin cu db = Content (Some rows)) <->
      exists u, authenticated cu = Some u /\ User.role u = "admin")
  /\ (forall u, authenticated cu = Some u -> User.role u <> "admin" ->
                page_admin cu db = Restricted)
  /\ (authenticated cu = None -> page_admin cu db = MembersOnly).
Proof.
  unfold top_navbar_items, page_admin, role_guard, auth_guard.
  destruct (authenticated cu) as [u|].
  - case_bool_decide as Hadm; cbn [negb].
    + split; [|split; [|split]].
      * split; [by exists u|]. intros _. set_solver.
      * split; [by exists u|]. by eexists.
      * intros v [= <-] Hv. done.
      * done.
    + apply isin_false_admin in Hadm as Hin. rewrite Hin.
      split; [|split; [|split]].
      * split; [set_solver|]. by intros (v & [= <-] & Hv).
      * split; [by intros [rows H]|]. by intros (v & [= <-] & Hv).
      * done.
      * done.
  - split; [|split; [|split]]; try done.
    + split; [set_solver|]. by intros (v & H & _).
    + split; [by intros [rows H]|]. by intros (v & H & _).
Qed.

Lemma admin_link_iff_console_witness :
  page_admin (SessionUser true Sample.researcher) Sample.db = Restricted
  /\ page_admin AnonymousUser Sample.db = MembersOnly.
Proof.
  destruct (admin_link_iff_console (SessionUser true Sample.researcher) Sample.db)
    as (_ & _ & Hother & _).
  destruct (admin_link_iff_console AnonymousUser Sample.db) as (_ & _ & _ & Hnone).
  split; [apply (Hother Sample.researcher eq_refl); discriminate|exact (Hnone eq_refl)].
Defined.

(** ** Searching and row actions *)







Lemma query_get_unique {A : Type} (pk : A -> Z) (table : list A) (r : A) :
  NoDup (pk <$> table) -> r ∈ table -> query_get pk table (pk r) = Some r.
Proof.
  unfold query_get. induction table as [|y l IH]; intros Hnd Hin.
  - by apply elem_of_nil in Hin.
  - cbn [fmap list_fmap] in Hnd. apply list.NoDup_cons in Hnd as [Hy Hnd].
    cbn [List.find]. apply elem_of_cons in Hin as [->|Hin].
    + by rewrite bool_decide_eq_true_2.
    + rewrite bool_decide_eq_false_2; [by apply IH|].
      intros Heq. apply Hy. rewrite Heq. by apply list_elem_of_fmap_2.
Qed.

(** X23: the buttons under the papers table agree with the download route:
    with unique paper ids, for the row selected in the listing the buttons
    include "Download PDF" exactly when a member's download of that id sends
    a file; the button leads to [/download/paper/<id>] of the row; nothing
    selected gives no buttons, and a selection past the end of the table
    raises [IndexError]. *)
Theorem paper_buttons_match_download (cu : CurrentUser) (u : User.t) (db : DB)
    (i : nat) (rest : list nat) (row : PaperRow.t) :
  NoDup (Paper.id <$> papers db) ->
  authenticated cu = Some u ->
  (paper_rows db !! i = Some row ->
   exists buttons,
     paper_actions (i :: rest) (paper_rows db) = Py.Returned (Some buttons)
     /\ ((exists b, b ∈ buttons /\ label b = "Download PDF") <->
         exists data fname, download_paper cu (PaperRow.ID row) db =
                            SendFile data fname "application/pdf")
     /\ forall b, b ∈ buttons -> label b = "Download PDF" ->
                  href b = "/download/paper/" +:+ Py.str_int (PaperRow.ID row))
  /\ paper_actions [] (paper_rows db) = Py.Returned None
  /\ (paper_rows db <> [] -> paper_rows db !! i = None ->
      paper_actions (i :: rest) (paper_rows db) = Py.Raised "IndexError").
Proof.
  intros Hnd Hcu. split; [|split].
  - intros Hrow. unfold paper_actions. rewrite Hrow.
    destruct (paper_rows db) as [|r0 rows0] eqn:Hrows; [done|]. rewrite <- Hrows in Hrow.
    eexists. split; [reflexivity|].
    unfold paper_rows in Hrow. apply list_lookup_fmap_Some in Hrow as (p & -> & Hp).
    apply list_elem_of_lookup_2, order_by_desc_elem in Hp.
    unfold download_paper. rewrite Hcu. cbn [paper_row PaperRow.ID PaperRow.PDF PaperRow.Link].
    rewrite (query_get_unique Paper.id (papers db) p Hnd Hp).
    destruct (Py.nonempty_bytes (Paper.file_bytes p)) as [data|].
    + rewrite bool_decide_eq_true_2 by done. split.
      * split; [intros _; by eexists _, _|]. intros _.
        exists (mk_Button "Download PDF" ("/download/paper/" +:+ Py.str_int (Paper.id p))).
        split; [|reflexivity]. apply elem_of_app. right. apply list_elem_of_here.
      * intros b Hb Hlabel. apply elem_of_app in Hb as [Hb|Hb].
        -- destruct (Py.truthy _); [|by apply elem_of_nil in Hb].
           apply list_elem_of_singleton in Hb. subst b. discriminate.
        -- apply list_elem_of_singleton in Hb. by subst b.
    + rewrite bool_decide_eq_false_2 by done. split.
      * split; [|by intros (d & f & H)]. intros (b & Hb & Hlabel).
        rewrite app_nil_r in Hb. destruct (Py.truthy _); [|by apply elem_of_nil in Hb].
        apply list_elem_of_singleton in Hb. subst b. discriminate.
      * intros b Hb Hlabel. rewrite app_nil_r in Hb.
        destruct (Py.truthy _); [|by apply elem_of_nil in Hb].
        apply list_elem_of_singleton in Hb. subst b. discriminate.
  - reflexivity.
  - intros Hne Hnone. unfold paper_actions. rewrite Hnone.
    by destruct (paper_rows db).
Qed.

Lemma paper_buttons_match_download_witness :
  exists buttons,
    paper_actions [0%nat] (paper_rows Sample.first_publish.2) = Py.Returned (Some buttons)
    /\ ((exists b, b ∈ buttons /\ label b = "Download PDF") <->
        exists data fname,
          download_paper (SessionUser true Sample.doctor) 1 Sample.first_publish.2 =
          SendFile data fname "application/pdf").
Proof.
  destruct (paper_buttons_match_download (SessionUser true Sample.doctor) Sample.doctor
              Sample.first_publish.2 0 []
              (paper_row (users_dict (users Sample.db))
                 {| Paper.id := 1; Paper.title := "Lipidomics notes"; Paper.link := None;
                    Paper.tags := None; Paper.summary := None;
                    Paper.created_at := Sample.t1; Paper.uploaded_by := 4;
                    Paper.file_name := Some "notes.pdf";
                    Paper.file_bytes := Some Sample.raw |}))
    as (Hrow & _).
  - compute_done.
  - reflexivity.
  - destruct Hrow as (buttons & Hb & Hiff & _); [vm_compute; reflexivity|].
    exists buttons. split; [exact Hb|exact Hiff].
Defined.

(** X29: the buttons under the datasets table look at the file only, not at
    the role: with unique dataset ids, the row selected has a "Download
    file" button exactly when the dataset holds at least one byte, and for a
    member that download then either sends the file or, for a
    researchers-only dataset and a role that is neither admin nor
    researcher, answers 403; it never answers 404. *)
Theorem dataset_buttons_ignore_role (cu : CurrentUser) (u : User.t) (db : DB)
    (i : nat) (rest : list nat) (row : DatasetRow.t) :
  NoDup (Dataset.id <$> datasets db) ->
  authenticated cu = Some u ->
  dataset_rows db !! i = Some row ->
  exists buttons,
    ds_actions (i :: rest) (dataset_rows db) = Py.Returned (Some buttons)
    /\ ((exists b, b ∈ buttons /\ label b = "Download file") <->
        (exists data fname, download_dataset cu (DatasetRow.ID row) db =
                            SendFile data fname "application/octet-stream")
        \/ download_dataset cu (DatasetRow.ID row) db = Abort 403)
    /\ (download_dataset cu (DatasetRow.ID row) db = Abort 403 ->
        DatasetRow.Visibility row = "researchers"
        /\ User.role u ∉ ["admin"; "researcher"]).
Proof.
  intros Hnd Hcu Hrow. unfold ds_actions. rewrite Hrow.
  destruct (dataset_rows db) as [|r0 rows0] eqn:Hrows; [done|]. rewrite <- Hrows in Hrow.
  eexists. split; [reflexivity|].
  unfold dataset_rows in Hrow. apply list_lookup_fmap_Some in Hrow as (ds & -> & Hds).
  apply list_elem_of_lookup_2, order_by_desc_elem in Hds.
  unfold download_dataset. rewrite Hcu.
  cbn [dataset_row DatasetRow.ID DatasetRow.File DatasetRow.Link DatasetRow.Visibility].
  rewrite (query_get_unique Dataset.id (datasets db) ds Hnd Hds).
  destruct (Py.nonempty_bytes (Dataset.file_bytes ds)) as [data|].
  - rewrite bool_decide_eq_true_2 by done. split.
    + split.
      * intros _. destruct (bool_decide _ && _); [by right|left; by eexists _, _].
      * intros _.
        exists (mk_Button "Download file"
                  ("/download/dataset/" +:+ Py.str_int (Dataset.id ds))).
        split; [|reflexivity]. apply elem_of_app. right. apply list_elem_of_here.
    + destruct (bool_decide _ && _) eqn:Hgate; [|discriminate]. intros _.
      apply andb_prop in Hgate as [Hvis Hrole]. split.
      * by apply bool_decide_eq_true in Hvis.
      * apply negb_true_iff in Hrole. by apply isin_false.
  - rewrite bool_decide_eq_false_2 by done. split; [|discriminate]. split.
    + intros (b & Hb & Hlabel). rewrite app_nil_r in Hb.
      destruct (Py.truthy _); [|by apply elem_of_nil in Hb].
      apply list_elem_of_singleton in Hb. subst b. discriminate.
    + intros [(d & f & H)|H]; discriminate.
Qed.

Lemma dataset_buttons_ignore_role_witness :
  exists buttons,
    ds_actions [0%nat] (dataset_rows Sample.db_restricted) = Py.Returned (Some buttons)
    /\ ((exists b, b ∈ buttons /\ label b = "Download file") <->
        (exists data fname,
            download_dataset (SessionUser true Sample.doctor) 1 Sample.db_restricted =
            SendFile data fname "application/octet-stream")
        \/ download_dataset (SessionUser true Sample.doctor) 1 Sample.db_restricted
           = Abort 403).
Proof.
  destruct (dataset_buttons_ignore_role (SessionUser true Sample.doctor) Sample.doctor
              Sample.db_restricted 0 []
              (dataset_row (users_dict (users Sample.db_restricted)) Sample.restricted))
    as (buttons & Hb & Hiff & _).
  - compute_done.
  - reflexivity.
  - reflexivity.
  - exists buttons. split; [exact Hb|exact Hiff].
Defined.

(** ** The home page, staged uploads and blank input *)





(** X25: what an upload stages: when [cache_paper_upload] (or its twin for
    datasets) returns a store, the store's text decodes to the very bytes the
    upload's payload decodes to, the store keeps the file name, and the
    caption counts those bytes; with no contents the store is cleared; and
    contents without a comma raise [IndexError], which leaves both stores as
    they were. *)
Theorem staged_upload_decodes_back (contents filename : option string) (st : Stores) :
  (forall store meta,
      cache_paper_upload contents filename = Py.Returned (Some store, meta) ->
      exists c header payload raw,
        Py.nonempty contents = Some c
        /\ Py.split_comma c = Some (header, payload)
        /\ Base64.b64decode payload = Some raw
        /\ Base64.b64decode (UploadStore.bytes_b64 store) = Some raw
        /\ UploadStore.filename store = filename
        /\ meta = Selected filename (length raw))
  /\ (Py.truthy contents = false ->
      cache_paper_upload contents filename = Py.Returned (None, NoCaption)
      /\ paper_upload_store (on_paper_upload contents filename st) = None
      /\ ds_upload_store (on_ds_upload contents filename st) = None)
  /\ (forall c, Py.nonempty contents = Some c -> Py.split_comma c = None ->
                cache_paper_upload contents filename = Py.Raised "IndexError"
                /\ on_paper_upload contents filename st = st
                /\ on_ds_upload contents filename st = st)
  /\ cache_ds_upload contents filename = cache_paper_upload contents filename.
Proof.
  split; [|split; [|split; [|reflexivity]]].
  - unfold cache_paper_upload. intros store meta H.
    destruct (Py.nonempty contents) as [c|] eqn:Hc; [|by simplify_eq].
    destruct (Py.split_comma c) as [[header payload]|] eqn:Hsplit; [|discriminate].
    destruct (Base64.b64decode payload) as [raw|] eqn:Hraw; [|discriminate].
    simplify_eq. exists c, header, payload, raw.
    split; [done|]. split; [done|]. split; [done|]. split; [|done].
    apply b64decode_b64encode.
  - unfold Py.truthy, on_paper_upload, on_ds_upload, cache_paper_upload, cache_ds_upload.
    by destruct (Py.nonempty contents).
  - intros c Hc Hsplit.
    unfold on_paper_upload, on_ds_upload, cache_paper_upload, cache_ds_upload.
    by rewrite Hc, Hsplit.
Qed.

Lemma staged_upload_decodes_back_witness :
  exists c header payload raw,
    Py.nonempty (Some Sample.contents) = Some c
    /\ Py.split_comma c = Some (header, payload)
    /\ Base64.b64decode payload = Some raw
    /\ Base64.b64decode "AQID" = Some raw
    /\ Some "notes.pdf" = Some "notes.pdf"
    /\ Selected (Some "notes.pdf") 3 = Selected (Some "notes.pdf") (length raw).
Proof.
  exact (proj1 (staged_upload_decodes_back (Some Sample.contents) (Some "notes.pdf")
                  (mk_Stores None None))
           {| UploadStore.bytes_b64 := "AQID"; UploadStore.filename := Some "notes.pdf" |}
           (Selected (Some "notes.pdf") 3) eq_refl).
Defined.





(** ** Role changes, ids and the seeded admin *)

(** X24: a role an admin sets is the role the next request runs under:
    after [admin_actions] stored role [r] for a user, [load_user] for that id
    gives the user with role [r], and what the reloaded user may do follows
    [r] at once: set to patient, a researchers-only publish is refused and
    the research channel closed; set to researcher or admin, both are open. *)
Theorem role_change_takes_effect (cu : CurrentUser) (a u : User.t) (i : nat)
    (rest : list nat) (row : AdminRow.t) (data : list AdminRow.t) (r t : string)
    (now : datetime) (title : option string) (db : DB) :
  authenticated cu = Some a -> User.role a = "admin" ->
  data !! i = Some row ->
  query_get User.id (users db) (AdminRow.ID row) = Some u ->
  r ∈ ["admin"; "researcher"; "patient"] ->
  Py.nonempty title = Some t ->
  exists out db' loaded,
    admin_actions cu "btn-admin-setrole" (i :: rest) data (Some r) db = (Py.Returned out, db')
    /\ load_user (AdminRow.ID row) db' = Some loaded
    /\ User.role loaded = r /\ User.id loaded = User.id u
    /\ (r = "patient" ->
        publish_dataset (SessionUser true loaded) now title None None None
          (Some "researchers") None db' =
          (Py.Returned (mk_Alert "Only researchers/admin can post researcher-only items."
                                 "danger" true, no_update), db')
        /\ can_access_channel loaded (Some "research") = false)
    /\ (r <> "patient" ->
        (exists ds,
            publish_dataset (SessionUser true loaded) now title None None None
              (Some "researchers") None db' =
            (Py.Returned (published, Value (dataset_rows (add_dataset ds db'))),
             add_dataset ds db'))
        /\ can_access_channel loaded (Some "research") = true).
Proof.
  intros Hcu Hadm Hrow Hget Hr Ht.
  rewrite (set_role_updates cu (i :: rest) data (Some r) db a i rest row
             (conj Hcu Hadm) (conj eq_refl Hrow) u r Hget eq_refl Hr).
  eexists _, _, (set_role r u). split; [reflexivity|].
  split; [by apply query_get_update_user|]. split; [done|]. split; [done|].
  split.
  - intros ->. split; [|reflexivity].
    by apply (publish_dataset_refused _ _ _ _ _ _ _ _ _ (set_role "patient" u) t);
      [..|apply isin_false].
  - intros Hnp. assert (r ∈ ["admin"; "researcher"]) as Hin.
    { set_unfold. destruct Hr as [->|[->|[->|[]]]]; auto. }
    split.
    + eexists.
      by apply (publish_dataset_restricted _ _ _ _ _ _ _ _ _ (set_role r u) t None None).
    + unfold can_access_channel. cbn [set_role User.role].
      set_unfold. destruct Hin as [->|[->|[]]]; reflexivity.
Qed.

Lemma role_change_takes_effect_witness :
  exists out db' loaded,
    admin_actions (SessionUser true Sample.admin) "btn-admin-setrole" [1%nat]
      (admin_row <$> users Sample.db) (Some "patient") Sample.db = (Py.Returned out, db')
    /\ load_user 2 db' = Some loaded
    /\ User.role loaded = "patient" /\ User.id loaded = 2%Z
    /\ publish_dataset (SessionUser true loaded) Sample.t1 (Some "Cohort") None None None
         (Some "researchers") None db' =
       (Py.Returned (mk_Alert "Only researchers/admin can post researcher-only items."
                              "danger" true, no_update), db')
    /\ can_access_channel loaded (Some "research") = false.
Proof.
  destruct (role_change_takes_effect (SessionUser true Sample.admin) Sample.admin
              Sample.researcher 1 [] (admin_row Sample.researcher)
              (admin_row <$> users Sample.db) "patient" "Cohort" Sample.t1 (Some "Cohort")
              Sample.db)
    as (out & db' & loaded & Hact & Hload & Hrole & Hid & Hpat & _).
  - reflexivity.
  - reflexivity.
  - reflexivity.
  - reflexivity.
  - by apply isin_true.
  - reflexivity.
  - exists out, db', loaded. destruct (Hpat eq_refl) as [Hpub Hchan].
    repeat split; assumption.
Defined.

Lemma appended_unique {A : Type} (pk : A -> Z) (before after : list A) :
  appended pk before after ->
  NoDup (pk <$> before) ->
  NoDup (pk <$> after)
  /\ forall r, r ∈ before -> query_get pk after (pk r) = Some r.
Proof.
  intros [->|(x & -> & Hx)] Hnd.
  - split; [done|]. intros r Hr. by apply query_get_unique.
  - assert (NoDup (pk <$> (before ++ [x])%list)) as Hnd'.
    { rewrite fmap_app. apply list.NoDup_app. split; [done|].
      split; [|apply list.NoDup_singleton].
      intros y Hy Hy'. apply list_elem_of_singleton in Hy'. subst y.
      rewrite Hx in Hy. by apply next_id_fresh in Hy. }
    split; [done|]. intros r Hr. apply query_get_unique; [done|].
    apply elem_of_app. by left.
Qed.

(** X27: publishing keeps ids unique and earlier records retrievable: if
    the ids of the papers (datasets) are pairwise different before a
    publish, they are so after it, whether it went through or not, and every
    record that was stored is still what [get] by its id returns. *)
Theorem publish_keeps_ids_unique (cu : CurrentUser) (now : datetime)
    (title desc link tags summary vis : option string)
    (upload_store : option UploadStore.t) (db : DB) :
  (NoDup (Paper.id <$> papers db) ->
   NoDup (Paper.id <$> papers (publish_paper cu now title link tags summary upload_store db).2)
   /\ forall p, p ∈ papers db ->
        query_get Paper.id
          (papers (publish_paper cu now title link tags summary upload_store db).2)
          (Paper.id p) = Some p)
  /\ (NoDup (Dataset.id <$> datasets db) ->
      NoDup (Dataset.id <$>
               datasets (publish_dataset cu now title desc link tags vis upload_store db).2)
      /\ forall ds, ds ∈ datasets db ->
           query_get Dataset.id
             (datasets (publish_dataset cu now title desc link tags vis upload_store db).2)
             (Dataset.id ds) = Some ds).
Proof.
  split; intros Hnd; apply appended_unique; try done.
  - unfold publish_paper.
    destruct (authenticated cu); [|by left].
    destruct (Py.nonempty title); [|by left].
    destruct (staged_file upload_store) as [[fn fb]|e]; [|by left].
    right. by eexists.
  - unfold publish_dataset.
    destruct (authenticated cu); [|by left].
    destruct (Py.nonempty title); [|by left].
    destruct (_ && _); [by left|].
    destruct (staged_file upload_store) as [[fn fb]|e]; [|by left].
    right. by eexists.
Qed.

Lemma publish_keeps_ids_unique_witness :
  NoDup (Dataset.id <$>
           datasets (publish_dataset (SessionUser true Sample.admin) Sample.t2 (Some "Assay")
                       None None None None None Sample.db_restricted).2)
  /\ query_get Dataset.id
       (datasets (publish_dataset (SessionUser true Sample.admin) Sample.t2 (Some "Assay")
                    None None None None None Sample.db_restricted).2) 1
     = Some Sample.restricted.
Proof.
  destruct (proj2 (publish_keeps_ids_unique (SessionUser true Sample.admin) Sample.t2
                     (Some "Assay") None None None None None None Sample.db_restricted))
    as [Hnd Hget].
  - compute_done.
  - split; [exact Hnd|]. apply (Hget Sample.restricted). apply list_elem_of_here.
Defined.




